(** * MoonDock: event normalizer and Docker event watcher

    Shallow embedding of [src/moondock/events/parser.py] (the normalizer
    [parse_event] and its helpers) and of [src/moondock/events/watcher.py]
    (the reconnect / backoff loop [DockerEventWatcher._run] and the object
    operations around it), with the properties stated about them. *)

From Stdlib Require Import ZArith List String Ascii Bool Lia.
From Stdlib Require Import Floats.
Import ListNotations.
Open Scope Z_scope.
Open Scope string_scope.
Open Scope list_scope.
Set Warnings "-register-all".


(* ------------------------------------------------------------------ *)
(** ** Python values *)

Module Py.

(** The values a decoded Docker event may contain.  Dict keys are strings
    (events are decoded from JSON); a dict is an association list searched
    from its head, like a Python dict with unique keys. *)
Inductive pyval : Type :=
| PNone
| PBool (b : bool)
| PInt (z : Z)
| PFloat (f : float)
| PStr (s : string)
| PList (l : list pyval)
| PDict (d : list (string * pyval)).

Definition dict := list (string * pyval).

(** Exceptions the embedded code can raise. *)
Inductive pyexc : Type :=
| AttributeError
| TypeError
| ValueError
| OverflowError.

(** A computation that returns a value or raises. *)
Inductive res (A : Type) : Type :=
| Ok (a : A)
| Raise (e : pyexc).
Arguments Ok {A} a.
Arguments Raise {A} e.

Definition bind {A B} (m : res A) (k : A -> res B) : res B :=
  match m with
  | Ok a => k a
  | Raise e => Raise e
  end.

Notation "x <- m ;; k" := (bind m (fun x => k))
  (at level 61, m at next level, right associativity).

(** [bool(v)] *)
Definition truthy (v : pyval) : bool :=
  match v with
  | PNone => false
  | PBool b => b
  | PInt z => negb (Z.eqb z 0)
  | PFloat f => negb (PrimFloat.eqb f 0%float)   (* nan is truthy *)
  | PStr s => negb (String.eqb s EmptyString)
  | PList l => match l with [] => false | _ => true end
  | PDict d => match d with [] => false | _ => true end
  end.

(** [a or b] *)
Definition py_or (a b : pyval) : pyval := if truthy a then a else b.

(** [d.get(k)] on a dict *)
Fixpoint dget (d : dict) (k : string) : pyval :=
  match d with
  | [] => PNone
  | (k', v) :: rest => if String.eqb k k' then v else dget rest k
  end.

(** [v.get(k)] on an arbitrary value: only dicts have the method. *)
Definition mget (v : pyval) (k : string) : res pyval :=
  match v with
  | PDict d => Ok (dget d k)
  | _ => Raise AttributeError
  end.

Definition is_none (v : pyval) : bool :=
  match v with PNone => true | _ => false end.

(** [isinstance(v, (int, float))]; [bool] is a subclass of [int]. *)
Definition is_number (v : pyval) : bool :=
  match v with
  | PBool _ | PInt _ | PFloat _ => true
  | _ => false
  end.

(** [v > 0] for a number *)
Definition num_pos (v : pyval) : bool :=
  match v with
  | PBool b => b
  | PInt z => Z.ltb 0 z
  | PFloat f => PrimFloat.ltb 0%float f
  | _ => false
  end.

(** [float(n)] for a Python [int]: rounded to nearest, ties to even;
    an int whose rounding overflows binary64 raises [OverflowError]. *)
Definition int_to_float (z : Z) : res float :=
  match SpecFloat.binary_normalize FloatOps.prec FloatOps.emax z 0 false with
  | SpecFloat.S754_infinity _ => Raise OverflowError
  | sf => Ok (FloatOps.SF2Prim sf)
  end.

(** [float(v)] for a number *)
Definition py_float (v : pyval) : res float :=
  match v with
  | PBool b => Ok (if b then 1%float else 0%float)
  | PInt z => int_to_float z
  | PFloat f => Ok f
  | _ => Raise TypeError
  end.

(** ASCII model of [str.lower()] *)
Definition lower_char (c : ascii) : ascii :=
  let n := nat_of_ascii c in
  if (65 <=? n)%nat && (n <=? 90)%nat then ascii_of_nat (n + 32) else c.

Fixpoint lower (s : string) : string :=
  match s with
  | EmptyString => EmptyString
  | String c r => String (lower_char c) (lower r)
  end.

(** [str.isspace()] on the ASCII range: \t \n \v \f \r, \x1c-\x1f, space. *)
Definition is_space (c : ascii) : bool :=
  let n := nat_of_ascii c in
  ((9 <=? n)%nat && (n <=? 13)%nat) || ((28 <=? n)%nat && (n <=? 32)%nat).

Fixpoint lstrip (s : string) : string :=
  match s with
  | EmptyString => EmptyString
  | String c r => if is_space c then lstrip r else s
  end.

Definition rev_string (s : string) : string :=
  string_of_list_ascii (rev (list_ascii_of_string s)).

(** ASCII model of [str.strip()] *)
Definition strip (s : string) : string :=
  rev_string (lstrip (rev_string (lstrip s))).

(** [v.lower()] on an arbitrary value *)
Definition py_lower (v : pyval) : res string :=
  match v with
  | PStr s => Ok (lower s)
  | _ => Raise AttributeError
  end.

(** [int(s)] for a string: surrounding whitespace, an optional sign, then
    decimal digits with single underscores allowed between digits. *)
Definition digit_val (c : ascii) : option Z :=
  let n := nat_of_ascii c in
  if (48 <=? n)%nat && (n <=? 57)%nat then Some (Z.of_nat (n - 48)) else None.

(** [prev_digit]: the previous character was a digit (an underscore may
    follow it). *)
Fixpoint digits_val (cs : list ascii) (acc : Z) (prev_digit : bool)
  : option Z :=
  match cs with
  | [] => if prev_digit then Some acc else None
  | c :: rest =>
      match digit_val c with
      | Some d => digits_val rest (acc * 10 + d) true
      | None =>
          if Ascii.eqb c "_"%char && prev_digit then
            match rest with
            | c' :: _ => match digit_val c' with
                         | Some _ => digits_val rest acc false
                         | None => None
                         end
            | [] => None
            end
          else None
      end
  end.

Definition parse_int_str (s : string) : res Z :=
  match list_ascii_of_string (strip s) with
  | "-"%char :: cs =>
      match digits_val cs 0 false with
      | Some z => Ok (- z)
      | None => Raise ValueError
      end
  | "+"%char :: cs =>
      match digits_val cs 0 false with
      | Some z => Ok z
      | None => Raise ValueError
      end
  | cs =>
      match digits_val cs 0 false with
      | Some z => Ok z
      | None => Raise ValueError
      end
  end.

(** [int(f)] for a float: truncation toward zero. *)
Definition float_trunc (f : float) : res Z :=
  match FloatOps.Prim2SF f with
  | SpecFloat.S754_nan => Raise ValueError
  | SpecFloat.S754_infinity _ => Raise OverflowError
  | SpecFloat.S754_zero _ => Ok 0
  | SpecFloat.S754_finite s m e =>
      let a := if Z.leb 0 e then Z.pos m * 2 ^ e else Z.pos m / 2 ^ (- e) in
      Ok (if s then - a else a)
  end.

(** [int(v)] *)
Definition py_int (v : pyval) : res Z :=
  match v with
  | PBool b => Ok (if b then 1 else 0)
  | PInt z => Ok z
  | PFloat f => float_trunc f
  | PStr s => parse_int_str s
  | _ => Raise TypeError
  end.

End Py.

(* ------------------------------------------------------------------ *)
(** ** [moondock/events/parser.py] *)

Module Parser.
Import Py.

(** [NormalizedEvent]; fields typed [Optional[...]] or [Any] in the source
    hold a [pyval]. *)
Record NormalizedEvent : Type := mkEvent {
  domain : string;
  action : pyval;
  id : pyval;
  name : pyval;
  image : pyval;
  exit_code : pyval;
  timestamp : float;
  attributes : dict;
  raw : dict
}.

(** [_ACTION_NORMALIZATION] *)
Definition _ACTION_NORMALIZATION : list (string * string) :=
  [("create", "create"); ("start", "start"); ("stop", "stop");
   ("die", "die"); ("destroy", "destroy"); ("restart", "restart");
   ("pause", "pause"); ("unpause", "unpause");
   ("health_status: healthy", "health_healthy");
   ("health_status: unhealthy", "health_unhealthy");
   ("pull", "pull"); ("push", "push")].

Fixpoint table_lookup (t : list (string * string)) (k : string)
  : option string :=
  match t with
  | [] => None
  | (k', v) :: rest => if String.eqb k k' then Some v else table_lookup rest k
  end.

(** [_ACTION_NORMALIZATION.get(raw_action)]: a list or dict key is
    unhashable; any other non-string key is simply absent. *)
Definition action_table_get (raw_action : pyval) : res pyval :=
  match raw_action with
  | PList _ | PDict _ => Raise TypeError
  | PStr s =>
      Ok (match table_lookup _ACTION_NORMALIZATION s with
          | Some v => PStr v
          | None => PNone
          end)
  | _ => Ok PNone
  end.

(** [_to_timestamp(raw)]; [now] is the value [time.time()] returns. *)
Definition _to_timestamp (now : float) (raw : dict) : res float :=
  let t := dget raw "time" in
  if is_number t && num_pos t then py_float t else
  let tnano := dget raw "timeNano" in
  if is_number tnano && num_pos tnano then
    (f <- py_float tnano ;; Ok (PrimFloat.div f 1e9%float)) else
  let t_alt := py_or (dget raw "timestamp") (dget raw "timeStamp") in
  if is_number t_alt && num_pos t_alt then py_float t_alt else
  Ok now.

(** [_normalize_action(raw_action)]; [None] is [PNone].  The [try] around
    [raw_action.strip().lower()] returns [raw_action] itself when it has no
    such methods. *)
Definition _normalize_action (raw_action : pyval) : res pyval :=
  if negb (truthy raw_action) then Ok PNone else
  normalized <- action_table_get raw_action ;;
  if truthy normalized then Ok normalized else
  match raw_action with
  | PStr s => Ok (PStr (lower (strip s)))
  | _ => Ok raw_action
  end.

(** [_safe_get_actor_attributes(raw)] *)
Definition _safe_get_actor_attributes (raw : dict) : res dict :=
  let actor := py_or (py_or (dget raw "Actor") (dget raw "actor")) (PDict []) in
  a1 <- mget actor "Attributes" ;;
  attrs <- (if truthy a1 then Ok a1 else
            a2 <- mget actor "attributes" ;; Ok (py_or a2 (PDict []))) ;;
  match attrs with
  | PDict d => Ok d
  | _ => Ok []
  end.

(** The [for key in ("exitCode", "exit_code", "exit")] loop of
    [_extract_container_info]. *)
Fixpoint exit_code_scan (attrs raw : dict) (keys : list string) : pyval :=
  match keys with
  | [] => PNone
  | key :: rest =>
      let val := dget attrs key in
      let val := if is_none val then dget raw key else val in
      if is_none val then exit_code_scan attrs raw rest else
      match py_int val with
      | Ok z => PInt z
      | Raise _ => exit_code_scan attrs raw rest
      end
  end.

Definition exit_keys : list string := ["exitCode"; "exit_code"; "exit"].

(** The dict [_extract_container_info] returns. *)
Record container_info : Type := mkInfo {
  info_id : pyval;
  info_name : pyval;
  info_image : pyval;
  info_exit_code : pyval;
  info_attributes : dict
}.

(** [_extract_container_info(raw)] *)
Definition _extract_container_info (raw : dict) : res container_info :=
  attrs <- _safe_get_actor_attributes raw ;;
  let container_id :=
    py_or (py_or (py_or (dget raw "id") (dget raw "ID"))
                 (dget attrs "container")) (dget attrs "id") in
  let name := py_or (py_or (dget attrs "name") (dget attrs "container")) PNone in
  let image := py_or (py_or (dget attrs "image") (dget attrs "image.name")) PNone in
  let exit_code := exit_code_scan attrs raw exit_keys in
  Ok (mkInfo container_id name image exit_code attrs).

Definition unknown_id : pyval := PStr "<unknown>".

(** The body of the [try] block of [parse_event]. *)
Definition build_event (domain : string) (action : pyval) (ts : float)
  (raw : dict) : res NormalizedEvent :=
  if String.eqb domain "container" then
    info <- _extract_container_info raw ;;
    Ok (mkEvent domain action (py_or (info_id info) unknown_id)
          (info_name info) (info_image info) (info_exit_code info)
          ts (info_attributes info) raw)
  else
    let resource_id := py_or (py_or (dget raw "id") (dget raw "ID")) PNone in
    attributes <- _safe_get_actor_attributes raw ;;
    Ok (mkEvent domain action (py_or resource_id unknown_id)
          (dget attributes "name") (dget attributes "image") PNone
          ts attributes raw).

(** [raw.get("Type") or raw.get("type") or "unknown"] *)
Definition domain_of (raw : dict) : pyval :=
  py_or (py_or (dget raw "Type") (dget raw "type")) (PStr "unknown").

(** [raw.get("Action") or raw.get("action") or raw.get("status")] *)
Definition raw_action_of (raw : dict) : pyval :=
  py_or (py_or (dget raw "Action") (dget raw "action")) (dget raw "status").

(** [parse_event(raw)]: [Ok None] is a returned [None], [Raise e] an
    exception escaping to the caller.  Everything before the [try] (domain,
    action, timestamp) is unprotected; the [except Exception] turns a fault
    of [build_event] into [None]. *)
Definition parse_event (now : float) (raw : pyval) : res (option NormalizedEvent) :=
  match raw with
  | PDict d =>
      domain <- py_lower (domain_of d) ;;
      action <- _normalize_action (raw_action_of d) ;;
      if negb (truthy action) then Ok None else
      ts <- _to_timestamp now d ;;
      match build_event domain action ts d with
      | Ok ne => Ok (Some ne)
      | Raise _ => Ok None
      end
  | _ => Ok None
  end.

End Parser.

(* ------------------------------------------------------------------ *)
(** ** [moondock/events/watcher.py] *)

Module Watcher.
Import Py.

(** The constructor arguments of [DockerEventWatcher] (after [float()]/[int()]). *)
Record config : Type := mkConfig {
  initial_backoff : float;
  backoff_factor : float;
  max_backoff : float;
  max_retries : option Z
}.

(** Exceptions reaching the [except] clauses of [_run]: the three classes
    of [except (APIError, DockerException, OSError)], and any other
    [Exception]. *)
Inductive exc_kind : Type :=
| APIError
| DockerException
| OSError
| OtherError.

Definition recoverable (e : exc_kind) : bool :=
  match e with
  | OtherError => false
  | _ => true
  end.

(** How an opened event stream stops yielding: normal end of iteration, or
    an exception raised while reading the next item. *)
Inductive stream_end : Type :=
| StreamClosed
| StreamFailed (e : exc_kind).

(** What one [client.events(decode=True)] call does: it raises, or it
    returns a stream yielding raw events, each paired with whether
    [self.callback(raw_event)] raises on it, and then ends. *)
Inductive attempt : Type :=
| OpenFailed (e : exc_kind)
| Opened (items : list (pyval * bool)) (fin : stream_end).

(** Observable effects of the loop. *)
Inductive obs : Type :=
| OOpen                      (* client.events(decode=True) called *)
| ODispatch (ev : pyval)     (* self.callback(raw_event) called *)
| OCallbackError             (* logger.exception for a callback fault *)
| OSleep (d : float)         (* time.sleep(d) *)
| OFatal.                    (* logger.critical: retries exceeded *)

(** The locals of [_run], and the number of [_stop_event.is_set()] reads
    so far. *)
Record wstate : Type := mkState {
  retries : Z;
  backoff : float;
  reads : nat
}.

(** How the current iteration of [while] ends: on to the next check,
    by [break], or by an exception that no [except] clause of [_run]
    catches ([Escape]). *)
Inductive step_out : Type := Continue | Break | Escape.

(** Why [_run] returned: [break] ([Stopped]), an exception propagating out
    of it ([Crashed]), or [Pending] when the scripted attempts ran out while
    the loop was about to open another stream. *)
Inductive outcome : Type := Stopped | Pending | Crashed.

(** Whether [time.sleep(d)] returns for the float [d].  CPython converts
    the duration to nanoseconds as the double [d * 1e9] rounded away from
    zero ([_PyTime_ROUND_TIMEOUT]); it raises [ValueError] for NaN and for
    a negative result, and [OverflowError] when the result is not below
    2**63.  For [x = d * 1e9], the rounded value is non-negative and below
    2**63 exactly when [0 <= x < 2**63] (NaN fails both comparisons; doubles
    from 2**52 on are integers, so rounding does not cross 2**63). *)
Definition sleep_ok (d : float) : bool :=
  PrimFloat.leb 0%float (PrimFloat.mul d 1e9%float) &&
  PrimFloat.ltb (PrimFloat.mul d 1e9%float) 9223372036854775808%float.

Section Loop.

Variable cfg : config.

(** [_stop_event.is_set()] at its [n]-th read: set by [stop()] from
    another thread at some point. *)
Variable flag : nat -> bool.

(** Python's [min(a, b)]: [b] only when [b < a]. *)
Definition py_min (a b : float) : float :=
  if PrimFloat.ltb b a then b else a.

(** [min(backoff * self.backoff_factor, self.max_backoff)] *)
Definition next_backoff (b : float) : float :=
  py_min (PrimFloat.mul b (backoff_factor cfg)) (max_backoff cfg).

Definition tick (st : wstate) : wstate :=
  mkState (retries st) (backoff st) (S (reads st)).

(** [retries = 0; backoff = self.initial_backoff] after a successful open. *)
Definition reset (st : wstate) : wstate :=
  mkState 0 (initial_backoff cfg) (reads st).

Definition exceeded (r : Z) : bool :=
  match max_retries cfg with
  | Some m => Z.ltb m r
  | None => false
  end.

(** The two [except] clauses of [_run].  Their [time.sleep(backoff)]
    runs outside the [try], so an exception it raises leaves [_run]. *)
Definition handle_error (st : wstate) (e : exc_kind)
  : list obs * wstate * step_out :=
  if recoverable e then
    let r := retries st + 1 in
    if exceeded r then ([OFatal], mkState r (backoff st) (reads st), Break)
    else if sleep_ok (backoff st) then
      ([OSleep (backoff st)],
       mkState r (next_backoff (backoff st)) (reads st), Continue)
    else ([], mkState r (backoff st) (reads st), Escape)
  else if sleep_ok (backoff st) then
    ([OSleep (backoff st)],
     mkState (retries st) (next_backoff (backoff st)) (reads st), Continue)
  else ([], st, Escape).

(** [for raw_event in stream: if self._stop_event.is_set(): break; try:
    self.callback(raw_event) except Exception: log]; the boolean says
    whether the loop left by [break]. *)
Fixpoint dispatch (st : wstate) (items : list (pyval * bool))
  : list obs * wstate * bool :=
  match items with
  | [] => ([], st, false)
  | (ev, raises) :: rest =>
      if flag (reads st) then ([], tick st, true) else
      let '(o, st', brk) := dispatch (tick st) rest in
      (ODispatch ev :: (if raises then [OCallbackError] else []) ++ o, st', brk)
  end.

(** Lines 103-109: after the [for] loop, without an exception.  The
    [time.sleep(backoff)] there is inside the [try]: if it raises
    ([ValueError] or [OverflowError]), [except Exception] catches it and
    sleeps the same duration again. *)
Definition after_stream (st : wstate) : list obs * wstate * step_out :=
  if flag (reads st) then ([], tick st, Break)
  else if sleep_ok (backoff st) then ([OSleep (backoff st)], tick st, Continue)
  else handle_error (tick st) OtherError.

(** Leaving the [for] loop: by [break] or end of iteration (lines 103-109),
    or by an exception raised while reading the next item. *)
Definition stream_exit (st : wstate) (brk : bool) (fin : stream_end)
  : list obs * wstate * step_out :=
  if brk then after_stream st else
  match fin with
  | StreamClosed => after_stream st
  | StreamFailed e => handle_error st e
  end.

(** From line 93 on, with the state right after the successful open. *)
Definition stream_phase (st : wstate) (items : list (pyval * bool))
  (fin : stream_end) : list obs * wstate * step_out :=
  let '(o, st1, brk) := dispatch st items in
  let '(o', st2, out) := stream_exit st1 brk fin in
  (o ++ o', st2, out).

(** One iteration of the [while] body. *)
Definition run_attempt (st : wstate) (a : attempt)
  : list obs * wstate * step_out :=
  match a with
  | OpenFailed e =>
      let '(o, st', out) := handle_error st e in (OOpen :: o, st', out)
  | Opened items fin =>
      let '(o, st', out) := stream_phase (reset st) items fin in
      (OOpen :: o, st', out)
  end.

(** The [while not self._stop_event.is_set()] loop, on a script of
    connection attempts. *)
Fixpoint run (st : wstate) (atts : list attempt)
  : list obs * wstate * outcome :=
  if flag (reads st) then ([], tick st, Stopped) else
  match atts with
  | [] => ([], tick st, Pending)
  | a :: rest =>
      let '(o, st', out) := run_attempt (tick st) a in
      match out with
      | Break => (o, st', Stopped)
      | Escape => (o, st', Crashed)
      | Continue =>
          let '(o', st'', res) := run st' rest in (o ++ o', st'', res)
      end
  end.

(** [retries = 0; backoff = self.initial_backoff] on entry to [_run]. *)
Definition init : wstate := mkState 0 (initial_backoff cfg) 0.

(** [_run()] *)
Definition _run (atts : list attempt) : list obs * wstate * outcome :=
  run init atts.

End Loop.

Definition sleeps (o : list obs) : list float :=
  flat_map (fun x => match x with OSleep d => [d] | _ => [] end) o.

Definition dispatched (o : list obs) : list pyval :=
  flat_map (fun x => match x with ODispatch ev => [ev] | _ => [] end) o.

Definition opens (o : list obs) : nat :=
  List.length (filter (fun x => match x with OOpen => true | _ => false end) o).

End Watcher.

(* ------------------------------------------------------------------ *)
(** ** The [DockerEventWatcher] object *)

Module WatcherObj.
Import Watcher.

(** [self._stop_event.is_set()] and [self._worker]: [None] before any
    background start, [Some alive] afterwards. *)
Record watcher : Type := mkWatcher {
  stop_flag : bool;
  worker : option bool
}.

(** [__init__]: a fresh [threading.Event()] and no worker. *)
Definition new_watcher : watcher := mkWatcher false None.

(** [stop()]: [set()] the event, then [join(timeout=5.0)] the worker if
    any; [joined] says whether the thread ended within the timeout. *)
Definition stop (w : watcher) (joined : bool) : watcher :=
  mkWatcher true
    (match worker w with
     | Some alive => Some (alive && negb joined)
     | None => None
     end).

(** [start_in_background()]: the boolean says whether a new thread
    running [_run] was started; a live worker makes it warn and return. *)
Definition start_in_background (w : watcher) : watcher * bool :=
  match worker w with
  | Some true => (w, false)
  | _ => (mkWatcher (stop_flag w) (Some true), true)
  end.

(** [start_forever()]: runs [_run] on the calling thread. *)
Definition start_forever (w : watcher) : watcher * bool := (w, true).

(** Everything that can happen to a watcher object. *)
Inductive op : Type :=
| OpStop (joined : bool)
| OpStartInBackground
| OpStartForever
| OpWorkerExits.           (* the background thread's [_run] returned *)

Definition apply_op (w : watcher) (o : op) : watcher * bool :=
  match o with
  | OpStop joined => (stop w joined, false)
  | OpStartInBackground => start_in_background w
  | OpStartForever => start_forever w
  | OpWorkerExits =>
      (match worker w with
       | Some true => mkWatcher (stop_flag w) (Some false)
       | _ => w
       end, false)
  end.

Fixpoint apply_ops (w : watcher) (os : list op) : watcher :=
  match os with
  | [] => w
  | o :: rest => apply_ops (fst (apply_op w o)) rest
  end.

(** The [_run] a start launches from [w]: its [is_set()] reads see the
    flag as it was at the start, or a later [set()] by [later k]. *)
Definition launched_run (cfg : config) (w : watcher) (later : nat -> bool)
  (atts : list attempt) : list obs * wstate * outcome :=
  _run cfg (fun k => stop_flag w || later k) atts.

End WatcherObj.


(* ------------------------------------------------------------------ *)
(** ** Readings of the specification, to compare with the code *)

Module SpecReading.
Import Py Parser.

(** [a or b or ... or default] *)
Definition first_truthy (vs : list pyval) (default : pyval) : pyval :=
  fold_right py_or default vs.

(** A value the timestamp rules accept: numeric and positive. *)
Definition usable (v : pyval) : bool := is_number v && num_pos v.

(** The timestamp chain as the spec words it: rule (3) asks only for a
    numeric [timestamp], else a numeric [timeStamp]. *)
Definition claim_timestamp (now : float) (raw : dict) : res float :=
  let t := dget raw "time" in
  if usable t then py_float t else
  let tnano := dget raw "timeNano" in
  if usable tnano then (f <- py_float tnano ;; Ok (PrimFloat.div f 1e9%float)) else
  let ts := dget raw "timestamp" in
  if is_number ts then py_float ts else
  let ts' := dget raw "timeStamp" in
  if is_number ts' then py_float ts' else
  Ok now.

(** The timestamp chain as the code has it: the candidates in order, each
    with whether it counts nanoseconds; the first usable one is converted
    with [float()], and with none the clock is read. *)
Definition ts_candidates (raw : dict) : list (pyval * bool) :=
  [(dget raw "time", false); (dget raw "timeNano", true);
   (py_or (dget raw "timestamp") (dget raw "timeStamp"), false)].

Definition timestamp_amended (now : float) (raw : dict) : res float :=
  match find (fun c => usable (fst c)) (ts_candidates raw) with
  | None => Ok now
  | Some (v, nano) =>
      f <- py_float v ;;
      Ok (if nano then PrimFloat.div f 1e9%float else f)
  end.

(** The first of [vs] that is not [None] and parses with [int()]. *)
Fixpoint first_int (vs : list pyval) : pyval :=
  match vs with
  | [] => PNone
  | v :: rest =>
      if is_none v then first_int rest else
      match py_int v with
      | Ok z => PInt z
      | Raise _ => first_int rest
      end
  end.

(** The exit code as the spec words it: all attribute keys first, then
    the top-level keys. *)
Definition exit_code_claim (attrs raw : dict) : pyval :=
  first_int (map (dget attrs) Parser.exit_keys ++ map (dget raw) Parser.exit_keys).

(** The exit code as the code has it: per key, the attribute value, or
    the top-level value when the attribute is absent ([None]). *)
Definition key_value (attrs raw : dict) (k : string) : pyval :=
  match dget attrs k with
  | PNone => dget raw k
  | v => v
  end.

Definition exit_code_amended (attrs raw : dict) : pyval :=
  first_int (map (key_value attrs raw) Parser.exit_keys).

(** The action field as the code has it, from the resolved raw action. *)
Definition action_amended (raw_action : pyval) : pyval :=
  match raw_action with
  | PStr s =>
      match table_lookup _ACTION_NORMALIZATION s with
      | Some v => PStr v
      | None => PStr (lower (strip s))
      end
  | v => v
  end.

End SpecReading.

Module WatcherSpec.
Import Py Watcher.

(** The configuration of the spec's example: initial 1s, factor 2, cap 5s. *)
Definition cfg125 (mr : option Z) : config := mkConfig 1%float 2%float 5%float mr.

(** The spec's sleep sequence 1, 2, 4, 5, 5, 5, ... *)
Definition claimed_backoff (i : nat) : float :=
  match i with
  | O => 1%float
  | 1%nat => 2%float
  | 2%nat => 4%float
  | _ => 5%float
  end.

(** The same stream with a handler that never raises. *)
Definition quiet (items : list (pyval * bool)) : list (pyval * bool) :=
  map (fun it => (fst it, false)) items.

End WatcherSpec.

(* ------------------------------------------------------------------ *)
(** ** [moondock/config.py] *)

Module Config.
Import Py.

(** The process environment as [os.getenv] sees it. *)
Definition env := string -> option string.

(** [os.getenv(key, default)] *)
Definition getenv (e : env) (key default : string) : string :=
  match e key with
  | Some v => v
  | None => default
  end.

(** [s.strip(",")] *)
Fixpoint lstrip_char (c : ascii) (s : string) : string :=
  match s with
  | EmptyString => EmptyString
  | String c' r => if Ascii.eqb c' c then lstrip_char c r else s
  end.

Definition strip_char (c : ascii) (s : string) : string :=
  rev_string (lstrip_char c (rev_string (lstrip_char c s))).

Definition DISCORD_WEBHOOK (e : env) : string :=
  strip (getenv e "DISCORD_WEBHOOK" "").

Definition DOCKER_HOST (e : env) : string :=
  strip (getenv e "DOCKER_HOST" "unix:///var/run/docker.sock").

(** [os.getenv("DOCKER_TLS_VERIFY", "").strip() in ("1", "true", "True")] *)
Definition DOCKER_TLS_VERIFY (e : env) : bool :=
  let v := strip (getenv e "DOCKER_TLS_VERIFY" "") in
  String.eqb v "1" || String.eqb v "true" || String.eqb v "True".

Definition DOCKER_CERT_PATH (e : env) : string :=
  strip (getenv e "DOCKER_CERT_PATH" "").

Definition _default_events : list string := ["die"; "oom"; "kill"; "restart"].

(** [",".join(xs)] *)
Fixpoint join_comma (xs : list string) : string :=
  match xs with
  | [] => ""
  | [x] => x
  | x :: rest => x ++ "," ++ join_comma rest
  end%string.

(** [[e.strip() for e in os.getenv("CRITICAL_EVENTS", ",".join(...)).strip(",")
    if e.strip()]]: the comprehension iterates over the characters of
    the string. *)
Definition CRITICAL_EVENTS (e : env) : list string :=
  let v := strip_char "," (getenv e "CRITICAL_EVENTS" (join_comma _default_events)) in
  map (fun c => strip (String c EmptyString))
      (filter (fun c => negb (String.eqb (strip (String c EmptyString)) EmptyString))
              (list_ascii_of_string v)).

(** [int(os.getenv("HTTP_TIMEOUT_SECONDS", "5"))] *)
Definition HTTP_TIMEOUT_SECONDS (e : env) : res Z :=
  parse_int_str (getenv e "HTTP_TIMEOUT_SECONDS" "5").

End Config.

(* ------------------------------------------------------------------ *)
(** ** [moondock/clients/docker_client.py] *)

Module DockerClient.
Import Py Config.

(** [s.split("/")] *)
Fixpoint split_slash_aux (cs : list ascii) (cur : list ascii) : list string :=
  match cs with
  | [] => [string_of_list_ascii (rev cur)]
  | c :: rest =>
      if Ascii.eqb c "/" then string_of_list_ascii (rev cur) :: split_slash_aux rest []
      else split_slash_aux rest (c :: cur)
  end.

Definition split_slash (s : string) : list string :=
  split_slash_aux (list_ascii_of_string s) [].

(** ["/".join(xs)] *)
Fixpoint join_slash (xs : list string) : string :=
  match xs with
  | [] => ""
  | [x] => x
  | x :: rest => x ++ "/" ++ join_slash rest
  end%string.

(** The component loop of [posixpath.normpath]; [new_comps] is kept
    reversed (its head is [new_comps[-1]]). *)
Fixpoint normpath_comps (initial_slashes : nat) (comps new_comps : list string)
  : list string :=
  match comps with
  | [] => rev new_comps
  | comp :: rest =>
      if String.eqb comp "" || String.eqb comp "." then
        normpath_comps initial_slashes rest new_comps
      else if negb (String.eqb comp "..") ||
              (Nat.eqb initial_slashes 0 &&
               match new_comps with [] => true | _ => false end) ||
              match new_comps with
              | last :: _ => String.eqb last ".."
              | [] => false
              end then
        normpath_comps initial_slashes rest (comp :: new_comps)
      else
        match new_comps with
        | _ :: popped => normpath_comps initial_slashes rest popped
        | [] => normpath_comps initial_slashes rest []
        end
  end.

Fixpoint slashes (n : nat) : string :=
  match n with
  | O => ""
  | S k => String "/" (slashes k)
  end.

(** [os.path.normpath] on POSIX *)
Definition normpath (path : string) : string :=
  if String.eqb path "" then "." else
  let initial_slashes :=
    if String.prefix "/" path then
      if String.prefix "//" path && negb (String.prefix "///" path) then 2%nat
      else 1%nat
    else 0%nat in
  let p := join_slash (normpath_comps initial_slashes (split_slash path) []) in
  let p := (slashes initial_slashes ++ p)%string in
  if String.eqb p "" then "." else p.

(** [cert_path = os.path.normpath(DOCKER_CERT_PATH)] *)
Definition cert_path (e : env) : string := normpath (DOCKER_CERT_PATH e).

(** The arguments of [docker.tls.TLSConfig(...)]. *)
Record tls_config : Type := mkTLS {
  client_cert : string * string;
  ca_cert : string;
  verify : bool
}.

(** How [init_docker] ends: a pinged client with its TLS setting, a
    [RuntimeError] (with whether a connection was attempted), or the
    [TLSParameterError] the docker library raises for a TLS setting it
    rejects (outside the [try]). *)
Inductive init_outcome : Type :=
| Connected (tls : option tls_config)
| InitRuntimeError (connect_attempted : bool)
| InitTLSParameterError.

Section Init.
Variable e : env.
(** Whether [docker.tls.TLSConfig] accepts the given files. *)
Variable tls_accepts : tls_config -> bool.
(** Whether [docker.DockerClient(...)] and [client.ping()] succeed, rather
    than raise [DockerException]. *)
Variable connects : option tls_config -> bool.

(** [_build_tls_config()] *)
Definition _build_tls_config : option tls_config + init_outcome :=
  if negb (DOCKER_TLS_VERIFY e) then inl None else
  if String.eqb (DOCKER_CERT_PATH e) "" then inr (InitRuntimeError false) else
  let cfg := mkTLS ((cert_path e ++ "/cert.pem")%string, (cert_path e ++ "/key.pem")%string)
                   (cert_path e ++ "/ca.pem")%string true in
  if tls_accepts cfg then inl (Some cfg) else inr InitTLSParameterError.

(** [init_docker()] *)
Definition init_docker : init_outcome :=
  let tls :=
    if String.prefix "tcp://" (DOCKER_HOST e) then
      if DOCKER_TLS_VERIFY e then _build_tls_config else inl None
    else inl None in
  match tls with
  | inr err => err
  | inl t => if connects t then Connected t else InitRuntimeError true
  end.

End Init.

End DockerClient.

(* ------------------------------------------------------------------ *)
(** ** [moondock/clients/discord_client.py] *)

Module Discord.
Import Py Parser Config.

Definition ACTION_EMOJIS : list (string * string) :=
  [("die", "🪦 "); ("kill", "💀 "); ("oom", "💥 "); ("restart", "⟲ ");
   ("start", "▶️ "); ("stop", "⏹️ "); ("create", "🏗️ "); ("destroy", "🗑️ ");
   ("pause", "⏸️ "); ("unpause", "▶️ "); ("health_healthy", "❤️ ");
   ("health_unhealthy", "💔 "); ("pull", "⬇️ "); ("push", "⬆️ ");
   ("connect", "🔗 "); ("disconnect", "⛓️ "); ("attach", "🔌 ")].

Definition ACTION_COLORS : list (string * Z) :=
  [("die", 16711680); ("kill", 16729344); ("oom", 16737095);
   ("restart", 2003199); ("start", 65280); ("stop", 8421504);
   ("create", 52945); ("connect", 16776960); ("disconnect", 16753920);
   ("destroy", 9109504); ("pull", 2003199); ("push", 2003199);
   ("attach", 52945); ("health_healthy", 65280); ("health_unhealthy", 65280)].

Fixpoint assoc {A} (t : list (string * A)) (k : string) : option A :=
  match t with
  | [] => None
  | (k', v) :: rest => if String.eqb k k' then Some v else assoc rest k
  end.

(** [table.get(key, default)] with an arbitrary key. *)
Definition table_get {A} (t : list (string * A)) (key : pyval) (default : A) : res A :=
  match key with
  | PList _ | PDict _ => Raise TypeError
  | PStr s => Ok (match assoc t s with Some v => v | None => default end)
  | _ => Ok default
  end.

(** [v[:12]]: strings and lists slice; the other values here are not
    subscriptable. *)
Definition slice12 (v : pyval) : res pyval :=
  match v with
  | PStr s => Ok (PStr (substring 0 12 s))
  | PList l => Ok (PList (firstn 12 l))
  | _ => Raise TypeError
  end.

(** The embed dict. *)
Record embed : Type := mkEmbed {
  title : string;
  color : Z;
  description : string
}.

Definition newline : string := String (ascii_of_nat 10) EmptyString.

(** ["\n".join(lines)] *)
Fixpoint join_lines (xs : list string) : string :=
  match xs with
  | [] => ""
  | [x] => x
  | x :: rest => x ++ newline ++ join_lines rest
  end%string.

Section Embed.
(** [str(v)] as an f-string field formats it (never raises on these values). *)
Variable fmt : pyval -> string.

(** [DiscordClient._build_embed(event)] *)
Definition _build_embed (ev : NormalizedEvent) : res embed :=
  emoji <- table_get ACTION_EMOJIS (action ev) "" ;;
  color <- table_get ACTION_COLORS (action ev) 8421504 ;;
  let head := [("Domain      : " ++ fmt (PStr (domain ev)))%string;
               ("Action      : " ++ fmt (action ev))%string] in
  lines <-
    (if String.eqb (domain ev) "container" then
       idv <- slice12 (id ev) ;;
       Ok (head ++
           [("Name        : " ++ fmt (py_or (name ev) (PStr "N/A")))%string;
            ("Image       : " ++ fmt (py_or (image ev) (PStr "N/A")))%string;
            ("ID          : " ++ fmt idv)%string] ++
           (if is_none (exit_code ev) then []
            else [("Exit Code   : " ++ fmt (exit_code ev))%string]))
     else if String.eqb (domain ev) "network" then
       Ok (head ++
           [("Network     : " ++ fmt (py_or (name ev) (PStr "N/A")))%string;
            ("Container   : " ++ fmt (py_or (name ev) (PStr "N/A")))%string])
     else
       idv <- (if truthy (id ev) then slice12 (id ev) else Ok (PStr "<unknown>")) ;;
       Ok (head ++ [("ID          : " ++ fmt idv)%string])) ;;
  Ok (mkEmbed (emoji ++ " Docker Event Detected")%string color
              ("```" ++ join_lines lines ++ "```")%string).

(** What [requests.post] does: a response with a status code, or a
    [requests.RequestException]. *)
Inductive post_result : Type :=
| Response (status_code : Z)
| RequestException.

(** A [DiscordClient]. *)
Record client : Type := mkClient {
  webhook_url : string;
  timeout : Z
}.

(** [DiscordClient(webhook_url, timeout)]: [webhook_url or DISCORD_WEBHOOK]. *)
Definition new_client (e : env) (webhook_url : option string) (timeout : Z) : client :=
  mkClient (match webhook_url with
            | Some u => if String.eqb u "" then DISCORD_WEBHOOK e else u
            | None => DISCORD_WEBHOOK e
            end) timeout.

(** [send_event(event)]: the returned boolean, with the embed POSTed if a
    request was made; [post] is the webhook's answer. *)
Definition send_event (c : client) (post : embed -> post_result)
  (ev : NormalizedEvent) : res (bool * option embed) :=
  if String.eqb (webhook_url c) "" then Ok (false, None) else
  emb <- _build_embed ev ;;
  match post emb with
  | Response sc => Ok (Z.eqb sc 200 || Z.eqb sc 204, Some emb)
  | RequestException => Ok (false, Some emb)
  end.

End Embed.

End Discord.

(* ------------------------------------------------------------------ *)
(** ** [moondock/main.py] *)

Module Main.
Import Py Parser.

(** [docker_event_callback(raw_event, discord_client)]: [Ok None] when
    nothing is sent, [Ok (Some (ne, r))] when [send_event(ne)] was called
    and ended with [r] (a raise is caught and logged). *)
Definition docker_event_callback {A} (now : float)
  (send : NormalizedEvent -> res A) (raw_event : pyval)
  : res (option (NormalizedEvent * res A)) :=
  ne <- parse_event now raw_event ;;
  match ne with
  | None => Ok None
  | Some ev => Ok (Some (ev, send ev))
  end.

(** Whether the callback raises to the watcher. *)
Definition callback_raises {A} (r : res A) : bool :=
  match r with
  | Raise _ => true
  | Ok _ => false
  end.

(** The items a watcher stream of [raws] feeds [_run] when the callback
    is [docker_event_callback]. *)
Definition pipeline_items {A} (now : float) (send : NormalizedEvent -> res A)
  (raws : list pyval) : list (pyval * bool) :=
  map (fun r => (r, callback_raises (docker_event_callback now send r))) raws.

(** The events handed to [send_event] by one callback run. *)
Definition handed {A} (r : res (option (NormalizedEvent * res A))) : list NormalizedEvent :=
  match r with
  | Ok (Some (ev, _)) => [ev]
  | _ => []
  end.

End Main.

(* ------------------------------------------------------------------ *)
(** ** Properties of the normalizer *)

Module ParserFacts.
Import Py Parser SpecReading.

Lemma py_or_assoc (a b c : pyval) : py_or (py_or a b) c = py_or a (py_or b c).
Proof.
  unfold py_or. destruct (truthy a) eqn:Ha; [rewrite Ha | ]; reflexivity.
Qed.

Lemma build_event_fields dom act ts d ev :
  build_event dom act ts d = Ok ev ->
  domain ev = dom /\ action ev = act /\ timestamp ev = ts /\ raw ev = d.
Proof.
  unfold build_event.
  destruct (String.eqb dom "container").
  - destruct (_extract_container_info d); simpl; intro H; inversion H; auto.
  - destruct (_safe_get_actor_attributes d); simpl; intro H; inversion H; auto.
Qed.

(** What a returned event is made of. *)
Lemma parse_event_some_inv now rv ev :
  parse_event now rv = Ok (Some ev) ->
  exists d dom act,
    rv = PDict d /\ py_lower (domain_of d) = Ok dom /\
    _normalize_action (raw_action_of d) = Ok act /\ truthy act = true /\
    _to_timestamp now d = Ok (timestamp ev) /\
    build_event dom act (timestamp ev) d = Ok ev.
Proof.
  destruct rv as [| | | | | | d]; simpl; try discriminate.
  destruct (py_lower (domain_of d)) as [dom|] eqn:E1; simpl; [|discriminate].
  destruct (_normalize_action (raw_action_of d)) as [act|] eqn:E2; simpl;
    [|discriminate].
  destruct (truthy act) eqn:E3; simpl; [|discriminate].
  destruct (_to_timestamp now d) as [ts|] eqn:E4; simpl; [|discriminate].
  destruct (build_event dom act ts d) as [ne|] eqn:E5; intro H; inversion H; subst.
  destruct (build_event_fields _ _ _ _ _ E5) as (_ & _ & Hts & _).
  exists d, dom, act. rewrite Hts. auto 7.
Qed.

(** Every value of [_ACTION_NORMALIZATION] is a non-empty string. *)
Lemma action_table_cases s :
  table_lookup _ACTION_NORMALIZATION s = None \/
  exists v, table_lookup _ACTION_NORMALIZATION s = Some v /\
            String.eqb v EmptyString = false.
Proof.
  unfold _ACTION_NORMALIZATION; simpl.
  repeat match goal with
         | |- context [String.eqb s ?k] => destruct (String.eqb s k)
         end; eauto.
Qed.

Lemma normalize_action_amended ra act :
  _normalize_action ra = Ok act -> truthy act = true ->
  act = action_amended ra.
Proof.
  unfold _normalize_action.
  destruct (truthy ra) eqn:Hra; simpl.
  2: { intros H; inversion H; subst; discriminate. }
  destruct ra as [| | | |s| |]; try discriminate;
    try (intros H _; inversion H; reflexivity).
  unfold action_table_get, bind.
  destruct (action_table_cases s) as [Hn | (v & Hv & Hne)].
  - rewrite Hn. intros H _; inversion H.
    unfold action_amended. rewrite Hn. reflexivity.
  - rewrite Hv. unfold truthy. rewrite Hne. intros H _; inversion H.
    unfold action_amended. rewrite Hv. reflexivity.
Qed.

Lemma to_timestamp_amended now d :
  _to_timestamp now d = timestamp_amended now d.
Proof.
  unfold _to_timestamp, timestamp_amended, ts_candidates, usable; simpl.
  destruct (is_number (dget d "time") && num_pos (dget d "time")).
  - destruct (py_float (dget d "time")); reflexivity.
  - destruct (is_number (dget d "timeNano") && num_pos (dget d "timeNano")).
    + reflexivity.
    + destruct (is_number (py_or (dget d "timestamp") (dget d "timeStamp")) &&
                num_pos (py_or (dget d "timestamp") (dget d "timeStamp"))).
      * destruct (py_float (py_or (dget d "timestamp") (dget d "timeStamp")));
          reflexivity.
      * reflexivity.
Qed.

Lemma exit_code_scan_amended attrs d keys :
  exit_code_scan attrs d keys = first_int (map (key_value attrs d) keys).
Proof.
  induction keys as [|k ks IH]; simpl; [reflexivity|].
  unfold key_value. rewrite IH.
  destruct (dget attrs k); reflexivity.
Qed.

End ParserFacts.

Module ParserClaims.
Import Py Parser SpecReading ParserFacts.

(** The raw event of the test suite's [sample_die_event()], at a fixed
    time. *)
Definition sample_die_event : pyval :=
  PDict [("Type", PStr "container"); ("Action", PStr "die");
         ("id", PStr "91ab3921c2384f5d6e7f8a9b0c1d2e3f4a5b6c7d8e9f0a1b2c3d4e5f6a7b8c9");
         ("time", PInt 1700000000);
         ("Actor", PDict [("Attributes",
            PDict [("name", PStr "my_test_container");
                   ("image", PStr "busybox:latest");
                   ("exitCode", PStr "137")])])].

(** Claim C1 (code bug).  [parse_event] is documented not to raise on
    malformed input, but the domain and action lines run before its [try]:
    a non-string [Type] makes [.lower()] raise [AttributeError], and a list
    [Action] makes the table lookup raise [TypeError]; both escape to the
    caller. *)
Theorem parse_event_raises_outside_try (now : float) :
  parse_event now (PDict [("Type", PInt 1); ("Action", PStr "start")])
    = Raise AttributeError /\
  parse_event now (PDict [("Action", PList [PStr "start"])]) = Raise TypeError.
Proof. split; reflexivity. Qed.

(** Claim C6 (counterexample).  Rule (3) as stated takes a numeric
    [timeStamp] when [timestamp] is not numeric; the code reads
    [raw.get("timestamp") or raw.get("timeStamp")], so a truthy non-numeric
    [timestamp] hides [timeStamp], and the clock is used instead. *)
Lemma timestamp_rule3_counterexample :
  exists ev,
    parse_event 100%float
      (PDict [("Action", PStr "start"); ("timestamp", PStr "x");
              ("timeStamp", PInt 5)]) = Ok (Some ev) /\
    timestamp ev = 100%float /\
    claim_timestamp 100%float
      [("Action", PStr "start"); ("timestamp", PStr "x"); ("timeStamp", PInt 5)]
      = Ok 5%float.
Proof. eexists; split; [reflexivity | split; reflexivity]. Qed.

(** Claim C6 (amended).  The timestamp of a returned event is [float()]
    of the first usable (numeric and positive) value among [time],
    [timeNano] (then divided by 1e9) and [raw.get("timestamp") or
    raw.get("timeStamp")], and the current time when none is usable; in
    particular a usable [time] wins over [timeNano], and a usable
    [timeNano] with no usable [time] gives [float(timeNano) / 1e9]. *)
Theorem parse_event_timestamp (now : float) (d : dict) (ev : NormalizedEvent)
  (H : parse_event now (PDict d) = Ok (Some ev)) :
  Ok (timestamp ev) = timestamp_amended now d /\
  (usable (dget d "time") = true ->
   Ok (timestamp ev) = py_float (dget d "time")) /\
  (usable (dget d "time") = false -> usable (dget d "timeNano") = true ->
   Ok (timestamp ev) =
     (f <- py_float (dget d "timeNano") ;; Ok (PrimFloat.div f 1e9%float))).
Proof.
  destruct (parse_event_some_inv _ _ _ H) as (d' & dom & act & Hd & _ & _ & _ & Hts & _).
  inversion Hd; subst d'.
  rewrite <- Hts, to_timestamp_amended.
  unfold timestamp_amended, ts_candidates; simpl.
  split; [reflexivity|]. split.
  - intros Ht. rewrite Ht. destruct (py_float (dget d "time")); reflexivity.
  - intros Ht Hn. rewrite Ht, Hn. reflexivity.
Qed.

Lemma parse_event_timestamp_witness :
  exists ev,
    parse_event 0%float
      (PDict [("Action", PStr "start"); ("time", PInt 1700000000);
              ("timeNano", PInt 1700000000123456789)]) = Ok (Some ev) /\
    (Ok (timestamp ev) =
       timestamp_amended 0%float
         [("Action", PStr "start"); ("time", PInt 1700000000);
          ("timeNano", PInt 1700000000123456789)] /\
     (usable (PInt 1700000000) = true ->
      Ok (timestamp ev) = py_float (PInt 1700000000)) /\
     (usable (PInt 1700000000) = false ->
      usable (PInt 1700000000123456789) = true ->
      Ok (timestamp ev) =
        (f <- py_float (PInt 1700000000123456789) ;;
         Ok (PrimFloat.div f 1e9%float)))).
Proof.
  eexists. split; [reflexivity|].
  apply (parse_event_timestamp 0%float
           [("Action", PStr "start"); ("time", PInt 1700000000);
            ("timeNano", PInt 1700000000123456789)]).
  reflexivity.
Defined.

Lemma build_container_event_inv act ts d ev :
  build_event "container" act ts d = Ok ev ->
  exists attrs,
    _safe_get_actor_attributes d = Ok attrs /\
    ev = mkEvent "container" act
           (py_or (py_or (py_or (py_or (dget d "id") (dget d "ID"))
                                (dget attrs "container")) (dget attrs "id"))
                  unknown_id)
           (py_or (py_or (dget attrs "name") (dget attrs "container")) PNone)
           (py_or (py_or (dget attrs "image") (dget attrs "image.name")) PNone)
           (exit_code_scan attrs d exit_keys) ts attrs d.
Proof.
  unfold build_event; simpl.
  unfold _extract_container_info.
  destruct (_safe_get_actor_attributes d) as [attrs|]; simpl; [|discriminate].
  intro H; inversion H; subst. eauto.
Qed.

(** Claim C7 (counterexample).  The spec scans all attribute keys before
    the top-level ones; the code falls back to the top-level value of the
    same key when the attribute is absent, so a top-level [exitCode] "1"
    wins over an attribute [exit_code] "2". *)
Lemma exit_code_order_counterexample :
  exists ev attrs,
    parse_event 0%float
      (PDict [("Type", PStr "container"); ("Action", PStr "die");
              ("exitCode", PStr "1");
              ("Actor", PDict [("Attributes", PDict [("exit_code", PStr "2")])])])
      = Ok (Some ev) /\
    _safe_get_actor_attributes
      [("Type", PStr "container"); ("Action", PStr "die");
       ("exitCode", PStr "1");
       ("Actor", PDict [("Attributes", PDict [("exit_code", PStr "2")])])]
      = Ok attrs /\
    exit_code ev = PInt 1 /\
    exit_code_claim attrs
      [("Type", PStr "container"); ("Action", PStr "die");
       ("exitCode", PStr "1");
       ("Actor", PDict [("Attributes", PDict [("exit_code", PStr "2")])])]
      = PInt 2.
Proof. do 2 eexists; split; [reflexivity | split; [reflexivity | split; reflexivity]]. Qed.

(** Claim C7 (amended).  For a returned event whose domain is
    "container": [attributes] is the actor attribute dict; [id] is the
    first truthy of top-level [id], [ID], attribute [container], attribute
    [id], else "<unknown>"; [name] the first truthy of attributes [name],
    [container], else [None]; [image] the first truthy of attributes
    [image], [image.name], else [None]; [exit_code] the first of the keys
    [exitCode], [exit_code], [exit] whose value (the attribute, or the
    top-level value when the attribute is [None]) is not [None] and
    parses with [int()].  The test suite's die event normalizes to
    container / die / 137 with name and image from its attributes. *)
Theorem parse_event_container_fields :
  (forall (now : float) (d : dict) (ev : NormalizedEvent),
     parse_event now (PDict d) = Ok (Some ev) -> domain ev = "container" ->
     exists attrs,
       _safe_get_actor_attributes d = Ok attrs /\ attributes ev = attrs /\
       id ev = first_truthy [dget d "id"; dget d "ID";
                             dget attrs "container"; dget attrs "id"] unknown_id /\
       name ev = first_truthy [dget attrs "name"; dget attrs "container"] PNone /\
       image ev = first_truthy [dget attrs "image"; dget attrs "image.name"] PNone /\
       exit_code ev = exit_code_amended attrs d) /\
  (forall now : float, exists ev,
     parse_event now sample_die_event = Ok (Some ev) /\
     domain ev = "container" /\ action ev = PStr "die" /\
     exit_code ev = PInt 137 /\ name ev = PStr "my_test_container" /\
     image ev = PStr "busybox:latest").
Proof.
  split.
  - intros now d ev H Hdom.
    destruct (parse_event_some_inv _ _ _ H)
      as (d' & dom & act & Hd & _ & _ & _ & _ & Hb).
    inversion Hd; subst d'.
    destruct (build_event_fields _ _ _ _ _ Hb) as (Hdom' & _).
    rewrite Hdom in Hdom'; subst dom.
    destruct (build_container_event_inv _ _ _ _ Hb) as (attrs & Ha & ->).
    exists attrs.
    rewrite !py_or_assoc, exit_code_scan_amended; simpl.
    unfold first_truthy, exit_code_amended; simpl.
    repeat split; assumption || reflexivity.
  - intros now. eexists. split; [reflexivity|].
    repeat split; reflexivity.
Qed.

Lemma parse_event_container_fields_witness :
  exists ev,
    parse_event 0%float sample_die_event = Ok (Some ev) /\
    domain ev = "container" /\
    exists attrs,
      _safe_get_actor_attributes
        match sample_die_event with PDict d => d | _ => [] end = Ok attrs /\
      attributes ev = attrs /\
      exit_code ev = exit_code_amended attrs
        match sample_die_event with PDict d => d | _ => [] end.
Proof.
  eexists. split; [reflexivity|]. split; [reflexivity|].
  destruct (proj1 parse_event_container_fields 0%float
              match sample_die_event with PDict d => d | _ => [] end
              _ eq_refl eq_refl)
    as (attrs & Ha & Hat & _ & _ & _ & He).
  exists attrs. split; [exact Ha|]. split; [exact Hat | exact He].
Defined.

(** Claim C8 (counterexample).  A truthy non-string action such as the
    integer 5 has no [strip()]; [_normalize_action] returns it unchanged
    and the event's action is not a string. *)
Lemma action_not_string_counterexample :
  exists ev,
    parse_event 0%float (PDict [("Action", PInt 5)]) = Ok (Some ev) /\
    action ev = PInt 5.
Proof. eexists; split; reflexivity. Qed.

(** Claim C8 (amended).  A returned event comes from a dict and its
    action is truthy (non-empty): for a string raw action it is the table
    entry, or else the raw action trimmed and lower-cased (never empty,
    since an empty result yields [None]); a truthy non-string raw action
    (number, boolean) is passed through unchanged. *)
Theorem parse_event_action (now : float) (rv : pyval) (ev : NormalizedEvent)
  (H : parse_event now rv = Ok (Some ev)) :
  exists d, rv = PDict d /\ truthy (action ev) = true /\
            action ev = action_amended (raw_action_of d).
Proof.
  destruct (parse_event_some_inv _ _ _ H)
    as (d & dom & act & Hd & _ & Hn & Ht & _ & Hb).
  destruct (build_event_fields _ _ _ _ _ Hb) as (_ & Hact & _).
  exists d. rewrite Hact. split; [exact Hd|]. split; [exact Ht|].
  exact (normalize_action_amended _ _ Hn Ht).
Qed.

Lemma parse_event_action_witness :
  exists ev,
    parse_event 0%float (PDict [("Action", PStr " Health_Check ")]) = Ok (Some ev) /\
    exists d, PDict [("Action", PStr " Health_Check ")] = PDict d /\
      truthy (action ev) = true /\ action ev = action_amended (raw_action_of d).
Proof.
  eexists. split; [reflexivity|].
  apply (parse_event_action 0%float (PDict [("Action", PStr " Health_Check ")])).
  reflexivity.
Defined.

End ParserClaims.

(* ------------------------------------------------------------------ *)
(** ** Properties of the watcher loop *)

Module WatcherFacts.
Import Py Watcher WatcherSpec.

Lemma sleeps_app o o' : sleeps (o ++ o') = sleeps o ++ sleeps o'.
Proof. unfold sleeps. apply flat_map_app. Qed.

Lemma dispatched_app o o' : dispatched (o ++ o') = dispatched o ++ dispatched o'.
Proof. unfold dispatched. apply flat_map_app. Qed.

Lemma next_claimed_backoff i :
  next_backoff (cfg125 None) (claimed_backoff i) = claimed_backoff (S i).
Proof. destruct i as [|[|[|i]]]; reflexivity. Qed.

Lemma claimed_backoff_ok i : sleep_ok (claimed_backoff i) = true.
Proof. destruct i as [|[|[|i]]]; vm_compute; reflexivity. Qed.

(** One loop iteration whose open raises. *)
Lemma run_open_failed cfg flag st e rest :
  flag (reads st) = false ->
  run cfg flag st (OpenFailed e :: rest) =
  let '(o, st', out) := handle_error cfg (tick st) e in
  match out with
  | Break => (OOpen :: o, st', Stopped)
  | Escape => (OOpen :: o, st', Crashed)
  | Continue => let '(o', st'', r) := run cfg flag st' rest in
                (OOpen :: o ++ o', st'', r)
  end.
Proof.
  intros Hf. simpl. rewrite Hf.
  destruct (handle_error cfg (tick st) e) as [[o st'] out].
  destruct out; try reflexivity;
    destruct (run cfg flag st' rest) as [[o' st''] r]; reflexivity.
Qed.

Lemma handle_error_retry cfg st e :
  recoverable e = true -> exceeded cfg (retries st + 1) = false ->
  sleep_ok (backoff st) = true ->
  handle_error cfg st e =
  ([OSleep (backoff st)],
   mkState (retries st + 1) (next_backoff cfg (backoff st)) (reads st), Continue).
Proof. intros He Hx Hs. unfold handle_error. rewrite He, Hx, Hs. reflexivity. Qed.


(** Without a retry ceiling and with a valid duration, an [except] clause
    sleeps and escalates. *)
Lemma handle_error_unbounded cfg st e :
  max_retries cfg = None -> sleep_ok (backoff st) = true ->
  handle_error cfg st e =
  ([OSleep (backoff st)],
   mkState (if recoverable e then retries st + 1 else retries st)
     (next_backoff cfg (backoff st)) (reads st), Continue).
Proof.
  intros Hm Hs. unfold handle_error, exceeded. rewrite Hm, Hs.
  destruct (recoverable e); reflexivity.
Qed.

(** With the flag clear and a valid duration, the code after the [for]
    loop sleeps and goes on. *)
Lemma after_stream_sleep cfg flag st :
  flag (reads st) = false -> sleep_ok (backoff st) = true ->
  after_stream cfg flag st = ([OSleep (backoff st)], tick st, Continue).
Proof. intros Hf Hs. unfold after_stream. rewrite Hf, Hs. reflexivity. Qed.

Lemma handle_error_fatal cfg st e :
  recoverable e = true -> exceeded cfg (retries st + 1) = true ->
  handle_error cfg st e =
  ([OFatal], mkState (retries st + 1) (backoff st) (reads st), Break).
Proof. intros He Hx. unfold handle_error. rewrite He, Hx. reflexivity. Qed.

(** With the flag clear, the [for] loop dispatches every item. *)
Lemma dispatch_all flag st items :
  (forall k, flag k = false) ->
  exists o,
    dispatch flag st items =
      (o, mkState (retries st) (backoff st) (reads st + List.length items), false) /\
    dispatched o = map fst items /\ sleeps o = [].
Proof.
  intros Hf. revert st.
  induction items as [|[ev raises] rest IH]; intros st; simpl.
  - exists []. rewrite Nat.add_0_r. destruct st; auto.
  - rewrite Hf. destruct (IH (tick st)) as (o & Hd & Ho & Hs).
    rewrite Hd. eexists. split; [|split].
    + simpl. rewrite Nat.add_succ_r. reflexivity.
    + simpl. rewrite dispatched_app, Ho.
      destruct raises; reflexivity.
    + simpl. rewrite sleeps_app, Hs. destruct raises; reflexivity.
Qed.

(** One loop iteration whose open succeeds. *)
Lemma run_opened cfg flag st items fin rest :
  flag (reads st) = false ->
  run cfg flag st (Opened items fin :: rest) =
  let '(o, st', out) := stream_phase cfg flag (reset cfg (tick st)) items fin in
  match out with
  | Break => (OOpen :: o, st', Stopped)
  | Escape => (OOpen :: o, st', Crashed)
  | Continue => let '(o', st'', r) := run cfg flag st' rest in
                (OOpen :: o ++ o', st'', r)
  end.
Proof.
  intros Hf. simpl. rewrite Hf.
  destruct (stream_phase cfg flag (reset cfg (tick st)) items fin) as [[o st'] out].
  destruct out; try reflexivity;
    destruct (run cfg flag st' rest) as [[o' st''] r]; reflexivity.
Qed.

(** Whether the handler raises changes only the logged callback errors. *)
Lemma dispatch_quiet flag st items :
  snd (dispatch flag st items) = snd (dispatch flag st (quiet items)) /\
  snd (fst (dispatch flag st items)) = snd (fst (dispatch flag st (quiet items))) /\
  dispatched (fst (fst (dispatch flag st items))) =
  dispatched (fst (fst (dispatch flag st (quiet items)))).
Proof.
  revert st.
  induction items as [|[ev raises] rest IH]; intros st; simpl; [auto|].
  destruct (flag (reads st)); [simpl; auto|].
  destruct (IH (tick st)) as (H1 & H2 & H3).
  destruct (dispatch flag (tick st) rest) as [[o s] b].
  destruct (dispatch flag (tick st) (quiet rest)) as [[o' s'] b'].
  simpl in *. subst. split; [reflexivity|]. split; [reflexivity|].
  rewrite !dispatched_app. destruct raises; simpl; rewrite H3; reflexivity.
Qed.

(** Without a retry ceiling, a failing open sleeps the current backoff and
    goes on with the escalated one. *)
Lemma run_open_failed_unbounded cfg flag st e rest :
  max_retries cfg = None -> flag (reads st) = false ->
  sleep_ok (backoff st) = true ->
  exists st',
    backoff st' = next_backoff cfg (backoff st) /\
    fst (fst (run cfg flag st (OpenFailed e :: rest))) =
    OOpen :: OSleep (backoff st) :: fst (fst (run cfg flag st' rest)).
Proof.
  intros Hm Hf Hs. rewrite run_open_failed by exact Hf.
  rewrite (handle_error_unbounded cfg (tick st) e Hm Hs).
  exists (mkState (if recoverable e then retries st + 1 else retries st)
            (next_backoff cfg (backoff st)) (S (reads st))).
  split; [reflexivity|].
  destruct (run cfg flag _ rest) as [[o' s''] r]. reflexivity.
Qed.

(** Consecutive failing opens under the example configuration, with no
    retry ceiling, sleep along the claimed sequence. *)
Lemma run_errors_sleeps flag errs st i :
  (forall k, flag k = false) -> backoff st = claimed_backoff i ->
  sleeps (fst (fst (run (cfg125 None) flag st (map OpenFailed errs)))) =
  map claimed_backoff (seq i (List.length errs)).
Proof.
  intros Hf. revert st i.
  induction errs as [|e rest IH]; intros st i Hb.
  - simpl. rewrite Hf. reflexivity.
  - destruct (run_open_failed_unbounded (cfg125 None) flag st e (map OpenFailed rest)
                eq_refl (Hf _) ltac:(rewrite Hb; apply claimed_backoff_ok))
      as (st' & Hb' & Hrun).
    simpl map. rewrite Hrun. simpl. rewrite Hb.
    rewrite Hb, next_claimed_backoff in Hb'.
    rewrite (IH st' (S i) Hb'). reflexivity.
Qed.

(** Leaving the stream dispatches nothing more. *)
Lemma stream_exit_no_dispatch cfg flag st brk fin :
  dispatched (fst (fst (stream_exit cfg flag st brk fin))) = [].
Proof.
  unfold stream_exit, after_stream, handle_error.
  destruct brk; [|destruct fin as [|e]];
    repeat (match goal with |- context [if ?b then _ else _] => destruct b end);
    reflexivity.
Qed.

Lemma apply_op_keeps_flag w o :
  WatcherObj.stop_flag w = true ->
  WatcherObj.stop_flag (fst (WatcherObj.apply_op w o)) = true.
Proof.
  intros H. destruct o; simpl; try reflexivity.
  - unfold WatcherObj.start_in_background.
    destruct (WatcherObj.worker w) as [[|]|]; simpl; exact H.
  - exact H.
  - destruct (WatcherObj.worker w) as [[|]|]; simpl; exact H.
Qed.

Lemma apply_ops_keeps_flag w os :
  WatcherObj.stop_flag w = true ->
  WatcherObj.stop_flag (WatcherObj.apply_ops w os) = true.
Proof.
  revert w. induction os as [|o os IH]; intros w H; simpl; [exact H|].
  apply IH, apply_op_keeps_flag, H.
Qed.

End WatcherFacts.

Module WatcherClaims.
Import Py Watcher WatcherSpec WatcherFacts.

(** Claim C2.  A connection error that does not exceed the ceiling sleeps
    the current backoff (a duration [time.sleep] accepts) and sets it to [min(current * factor, max)], with
    the retry counter incremented; a successful open restarts from
    [retries = 0] and the initial backoff whatever came before; with
    initial 1, factor 2 and cap 5 (no ceiling), consecutive connection
    errors sleep 1, 2, 4, 5, 5, ..., and after a successful connection the
    sleeps start again from 1. *)
Theorem backoff_schedule :
  (forall cfg flag st e,
     recoverable e = true -> exceeded cfg (retries st + 1) = false ->
     sleep_ok (backoff st) = true ->
     run_attempt cfg flag st (OpenFailed e) =
     ([OOpen; OSleep (backoff st)],
      mkState (retries st + 1)
        (py_min (PrimFloat.mul (backoff st) (backoff_factor cfg)) (max_backoff cfg))
        (reads st), Continue)) /\
  (forall cfg flag st items fin,
     run_attempt cfg flag st (Opened items fin) =
     let '(o, st', out) :=
       stream_phase cfg flag (mkState 0 (initial_backoff cfg) (reads st)) items fin in
     (OOpen :: o, st', out)) /\
  (forall flag errs, (forall k, flag k = false) ->
     sleeps (fst (fst (_run (cfg125 None) flag (map OpenFailed errs)))) =
     map claimed_backoff (seq 0 (List.length errs))) /\
  (forall flag st items errs, (forall k, flag k = false) ->
     sleeps (fst (fst (run (cfg125 None) flag st
                         (Opened items StreamClosed :: map OpenFailed errs)))) =
     1%float :: map claimed_backoff (seq 0 (List.length errs))) /\
  (forall flag st items e errs, (forall k, flag k = false) ->
     sleeps (fst (fst (run (cfg125 None) flag st
                         (Opened items (StreamFailed e) :: map OpenFailed errs)))) =
     map claimed_backoff (seq 0 (S (List.length errs)))).
Proof.
  split; [|split; [|split; [|split]]].
  - intros cfg flag st e He Hx Hs. unfold run_attempt.
    rewrite handle_error_retry by assumption. reflexivity.
  - intros. reflexivity.
  - intros flag errs Hf. unfold _run. apply run_errors_sleeps; [exact Hf | reflexivity].
  - intros flag st items errs Hf.
    rewrite run_opened by apply Hf.
    destruct (dispatch_all flag (reset (cfg125 None) (tick st)) items Hf)
      as (o & Hd & _ & Hs).
    unfold stream_phase. rewrite Hd. simpl stream_exit.
    rewrite after_stream_sleep by (apply Hf || apply (claimed_backoff_ok 0)).
    cbv iota beta.
    pose proof (run_errors_sleeps flag errs
                  (tick (mkState (retries (reset (cfg125 None) (tick st)))
                                 (backoff (reset (cfg125 None) (tick st)))
                                 (reads (reset (cfg125 None) (tick st)) + List.length items)))
                  0 Hf eq_refl) as Hr.
    destruct (run _ flag _ (map OpenFailed errs)) as [[o' s''] r].
    simpl in *. rewrite !sleeps_app, Hs, Hr. reflexivity.
  - intros flag st items e errs Hf.
    rewrite run_opened by apply Hf.
    destruct (dispatch_all flag (reset (cfg125 None) (tick st)) items Hf)
      as (o & Hd & _ & Hs).
    unfold stream_phase. rewrite Hd. simpl stream_exit.
    rewrite handle_error_unbounded by (reflexivity || apply (claimed_backoff_ok 0)).
    destruct (recoverable e); cbv iota beta.
    + pose proof (run_errors_sleeps flag errs
        (mkState (retries (reset (cfg125 None) (tick st)) + 1)
           (next_backoff (cfg125 None) 1%float)
           (reads (reset (cfg125 None) (tick st)) + List.length items))
        1 Hf eq_refl) as Hr.
      destruct (run _ flag _ (map OpenFailed errs)) as [[o' s''] r].
      simpl in *. rewrite !sleeps_app, Hs, Hr. reflexivity.
    + pose proof (run_errors_sleeps flag errs
        (mkState (retries (reset (cfg125 None) (tick st)))
           (next_backoff (cfg125 None) 1%float)
           (reads (reset (cfg125 None) (tick st)) + List.length items))
        1 Hf eq_refl) as Hr.
      destruct (run _ flag _ (map OpenFailed errs)) as [[o' s''] r].
      simpl in *. rewrite !sleeps_app, Hs, Hr. reflexivity.
Qed.

Lemma backoff_schedule_witness :
  sleeps (fst (fst (_run (cfg125 None) (fun _ => false)
                      (map OpenFailed [APIError; OSError; DockerException;
                                       APIError; APIError; OSError])))) =
  [1%float; 2%float; 4%float; 5%float; 5%float; 5%float].
Proof.
  exact (proj1 (proj2 (proj2 backoff_schedule)) (fun _ => false)
           [APIError; OSError; DockerException; APIError; APIError; OSError]
           (fun _ => eq_refl)).
Defined.

(** Claim C3.  With [max_retries = 3], starting with the retry counter at
    zero (on entry to [_run] or after a successful open), four consecutive
    failing opens with transport/API errors sleep after each of the first
    three (the three backoffs being durations [time.sleep] accepts), log
    the fatal condition on the fourth (the counter now 4) and
    stop the loop: exactly four opens, whatever the environment would
    offer next. *)
Theorem retry_ceiling (cfg : config) (flag : nat -> bool) (st : wstate)
  (errs : list exc_kind) (rest : list attempt)
  (Hmr : max_retries cfg = Some 3) (Hr : retries st = 0)
  (Hf : forall k, flag k = false) (Hlen : List.length errs = 4%nat)
  (Hrec : Forall (fun e => recoverable e = true) errs)
  (Hs0 : sleep_ok (backoff st) = true)
  (Hs1 : sleep_ok (next_backoff cfg (backoff st)) = true)
  (Hs2 : sleep_ok (next_backoff cfg (next_backoff cfg (backoff st))) = true) :
  exists st',
    run cfg flag st (map OpenFailed errs ++ rest) =
    ([OOpen; OSleep (backoff st);
      OOpen; OSleep (next_backoff cfg (backoff st));
      OOpen; OSleep (next_backoff cfg (next_backoff cfg (backoff st)));
      OOpen; OFatal], st', Stopped) /\
    retries st' = 4 /\ opens (fst (fst (run cfg flag st (map OpenFailed errs ++ rest)))) = 4%nat.
Proof.
  destruct errs as [|e1 [|e2 [|e3 [|e4 [|e5 errs]]]]]; try discriminate.
  inversion Hrec as [|? ? H1 Hrec1]; subst.
  inversion Hrec1 as [|? ? H2 Hrec2]; subst.
  inversion Hrec2 as [|? ? H3 Hrec3]; subst.
  inversion Hrec3 as [|? ? H4 _]; subst.
  assert (Hx : forall r, exceeded cfg r = Z.ltb 3 r)
    by (intros r; unfold exceeded; rewrite Hmr; reflexivity).
  simpl app.
  rewrite run_open_failed by apply Hf.
  rewrite handle_error_retry
    by first [assumption | rewrite Hx; simpl; rewrite Hr; reflexivity].
  cbv iota beta.
  rewrite run_open_failed by apply Hf.
  rewrite handle_error_retry
    by first [assumption | rewrite Hx; simpl; rewrite Hr; reflexivity].
  cbv iota beta.
  rewrite run_open_failed by apply Hf.
  rewrite handle_error_retry
    by first [assumption | rewrite Hx; simpl; rewrite Hr; reflexivity].
  cbv iota beta.
  rewrite run_open_failed by apply Hf.
  rewrite handle_error_fatal
    by first [assumption | rewrite Hx; simpl; rewrite Hr; reflexivity].
  cbv iota beta. simpl. rewrite Hr.
  eexists. split; [reflexivity|]. split; reflexivity.
Qed.

Lemma retry_ceiling_witness :
  exists st',
    run (mkConfig 1%float 2%float 5%float (Some 3)) (fun _ => false)
      (init (mkConfig 1%float 2%float 5%float (Some 3)))
      (map OpenFailed [APIError; OSError; DockerException; APIError] ++
       [OpenFailed APIError]) =
    ([OOpen; OSleep 1%float;
      OOpen; OSleep (next_backoff (mkConfig 1%float 2%float 5%float (Some 3)) 1%float);
      OOpen; OSleep (next_backoff (mkConfig 1%float 2%float 5%float (Some 3))
                      (next_backoff (mkConfig 1%float 2%float 5%float (Some 3)) 1%float));
      OOpen; OFatal], st', Stopped) /\
    retries st' = 4 /\
    opens (fst (fst (run (mkConfig 1%float 2%float 5%float (Some 3)) (fun _ => false)
      (init (mkConfig 1%float 2%float 5%float (Some 3)))
      (map OpenFailed [APIError; OSError; DockerException; APIError] ++
       [OpenFailed APIError])))) = 4%nat.
Proof.
  apply (retry_ceiling (mkConfig 1%float 2%float 5%float (Some 3)) (fun _ => false)
           (init (mkConfig 1%float 2%float 5%float (Some 3)))
           [APIError; OSError; DockerException; APIError] [OpenFailed APIError]);
    try reflexivity; try (vm_compute; reflexivity).
  repeat constructor.
Defined.




(** Claim C5.  When the stream ends without error and no stop is seen,
    the code after the [for] loop sleeps the current backoff (a valid
    sleep duration) and goes on to reconnect, leaving the retry counter and the backoff as they were
    when the stream ended; these are the values the successful open set,
    so from any earlier state the iteration sleeps the initial backoff and
    ends with [retries = 0] and the initial backoff. *)
Theorem stream_end_keeps_state (cfg : config) (flag : nat -> bool)
  (st : wstate) (items : list (pyval * bool)) (Hf : forall k, flag k = false)
  (Hs : sleep_ok (backoff st) = true) (Hs0 : sleep_ok (initial_backoff cfg) = true) :
  (exists o,
     stream_phase cfg flag st items StreamClosed =
     (o ++ [OSleep (backoff st)],
      mkState (retries st) (backoff st) (S (reads st + List.length items)),
      Continue) /\ dispatched o = map fst items) /\
  (exists o,
     run_attempt cfg flag st (Opened items StreamClosed) =
     (OOpen :: o ++ [OSleep (initial_backoff cfg)],
      mkState 0 (initial_backoff cfg) (S (reads st + List.length items)),
      Continue)).
Proof.
  assert (Hphase : forall st0, sleep_ok (backoff st0) = true -> exists o,
     stream_phase cfg flag st0 items StreamClosed =
     (o ++ [OSleep (backoff st0)],
      mkState (retries st0) (backoff st0) (S (reads st0 + List.length items)),
      Continue) /\ dispatched o = map fst items).
  { intros st0 Hs1.
    destruct (dispatch_all flag st0 items Hf) as (o & Hd & Ho & _).
    exists o. unfold stream_phase. rewrite Hd. simpl stream_exit.
    rewrite after_stream_sleep by (apply Hf || exact Hs1).
    split; [reflexivity | exact Ho]. }
  split; [apply Hphase, Hs|].
  destruct (Hphase (reset cfg st) Hs0) as (o & Hp & _).
  exists o. unfold run_attempt. rewrite Hp. reflexivity.
Qed.

Lemma stream_end_keeps_state_witness :
  (exists o,
     stream_phase (cfg125 None) (fun _ => false) (mkState 2 4%float 7)
       [(PInt 1, false); (PInt 2, true)] StreamClosed =
     (o ++ [OSleep 4%float], mkState 2 4%float 10, Continue) /\
     dispatched o = [PInt 1; PInt 2]) /\
  (exists o,
     run_attempt (cfg125 None) (fun _ => false) (mkState 2 4%float 7)
       (Opened [(PInt 1, false); (PInt 2, true)] StreamClosed) =
     (OOpen :: o ++ [OSleep 1%float], mkState 0 1%float 10, Continue)).
Proof.
  exact (stream_end_keeps_state (cfg125 None) (fun _ => false) (mkState 2 4%float 7)
           [(PInt 1, false); (PInt 2, true)] (fun _ => eq_refl)
           ltac:(vm_compute; reflexivity) ltac:(vm_compute; reflexivity)).
Defined.

(** Claim C9.  With no stop requested, every item the stream yields is
    handed to the callback, whatever the callback raises on earlier items:
    the iteration ends in the same state and the same way as with a
    callback that never raises. *)
Theorem handler_faults_isolated (cfg : config) (flag : nat -> bool) (st : wstate)
  (items : list (pyval * bool)) (fin : stream_end) (Hf : forall k, flag k = false) :
  dispatched (fst (fst (run_attempt cfg flag st (Opened items fin)))) = map fst items /\
  snd (run_attempt cfg flag st (Opened items fin)) =
    snd (run_attempt cfg flag st (Opened (quiet items) fin)) /\
  snd (fst (run_attempt cfg flag st (Opened items fin))) =
    snd (fst (run_attempt cfg flag st (Opened (quiet items) fin))).
Proof.
  destruct (dispatch_all flag (reset cfg st) items Hf) as (o & Hd & Ho & _).
  destruct (dispatch_all flag (reset cfg st) (quiet items) Hf) as (o2 & Hd2 & _ & _).
  unfold quiet in Hd2. rewrite length_map in Hd2. fold (quiet items) in Hd2.
  unfold run_attempt, stream_phase. rewrite Hd, Hd2.
  pose proof (stream_exit_no_dispatch cfg flag
                (mkState (retries (reset cfg st)) (backoff (reset cfg st))
                         (reads (reset cfg st) + List.length items)) false fin) as Hx.
  destruct (stream_exit cfg flag _ false fin) as [[o' s'] out].
  simpl in *. rewrite dispatched_app, Ho, Hx, app_nil_r. auto.
Qed.

Lemma handler_faults_isolated_witness :
  dispatched (fst (fst (run_attempt (cfg125 None) (fun _ => false) (init (cfg125 None))
    (Opened [(PStr "k", true); (PStr "k+1", false)] StreamClosed)))) =
    [PStr "k"; PStr "k+1"] /\
  snd (run_attempt (cfg125 None) (fun _ => false) (init (cfg125 None))
    (Opened [(PStr "k", true); (PStr "k+1", false)] StreamClosed)) =
  snd (run_attempt (cfg125 None) (fun _ => false) (init (cfg125 None))
    (Opened (quiet [(PStr "k", true); (PStr "k+1", false)]) StreamClosed)) /\
  snd (fst (run_attempt (cfg125 None) (fun _ => false) (init (cfg125 None))
    (Opened [(PStr "k", true); (PStr "k+1", false)] StreamClosed))) =
  snd (fst (run_attempt (cfg125 None) (fun _ => false) (init (cfg125 None))
    (Opened (quiet [(PStr "k", true); (PStr "k+1", false)]) StreamClosed))).
Proof.
  exact (handler_faults_isolated (cfg125 None) (fun _ => false) (init (cfg125 None))
           [(PStr "k", true); (PStr "k+1", false)] StreamClosed (fun _ => eq_refl)).
Defined.

(** Claim C10 (counterexample).  After a background start, a [stop()]
    whose join times out leaves the worker alive; a later
    [start_in_background()] then only warns and starts no loop. *)
Lemma restart_after_stop_counterexample :
  WatcherObj.stop_flag
    (WatcherObj.stop (fst (WatcherObj.start_in_background WatcherObj.new_watcher)) false)
    = true /\
  snd (WatcherObj.start_in_background
         (WatcherObj.stop (fst (WatcherObj.start_in_background WatcherObj.new_watcher))
            false)) = false.
Proof. split; reflexivity. Qed.

(** Claim C10 (amended).  Once [stop()] has set the flag, no operation of
    the watcher clears it; [start_forever()] always runs [_run], and
    [start_in_background()] either starts no loop (previous worker still
    alive) or runs one; any loop so started sees the flag at its first
    check and returns at once, without opening the stream or calling the
    handler. *)
Theorem stop_is_final (cfg : config) (w : WatcherObj.watcher) (joined : bool)
  (ops : list WatcherObj.op) (o : WatcherObj.op) (later : nat -> bool)
  (atts : list attempt) :
  WatcherObj.stop_flag (WatcherObj.apply_ops (WatcherObj.stop w joined) ops) = true /\
  snd (WatcherObj.apply_op (WatcherObj.apply_ops (WatcherObj.stop w joined) ops)
         WatcherObj.OpStartForever) = true /\
  (snd (WatcherObj.apply_op (WatcherObj.apply_ops (WatcherObj.stop w joined) ops) o)
     = true ->
   WatcherObj.launched_run cfg
     (fst (WatcherObj.apply_op (WatcherObj.apply_ops (WatcherObj.stop w joined) ops) o))
     later atts = ([], mkState 0 (initial_backoff cfg) 1, Stopped)).
Proof.
  assert (Hs : WatcherObj.stop_flag
                 (WatcherObj.apply_ops (WatcherObj.stop w joined) ops) = true)
    by (apply apply_ops_keeps_flag; reflexivity).
  split; [exact Hs|]. split; [reflexivity|].
  intros _. unfold WatcherObj.launched_run, _run, run.
  rewrite (apply_op_keeps_flag _ o Hs). destruct atts; reflexivity.
Qed.

Lemma stop_is_final_witness :
  snd (WatcherObj.apply_op
         (WatcherObj.apply_ops (WatcherObj.stop WatcherObj.new_watcher true)
            [WatcherObj.OpStartInBackground; WatcherObj.OpStop false])
         WatcherObj.OpStartForever) = true /\
  WatcherObj.launched_run (cfg125 None)
    (fst (WatcherObj.apply_op
            (WatcherObj.apply_ops (WatcherObj.stop WatcherObj.new_watcher true)
               [WatcherObj.OpStartInBackground; WatcherObj.OpStop false])
            WatcherObj.OpStartForever))
    (fun _ => false) [Opened [(PStr "e", false)] StreamClosed] =
  ([], mkState 0 1%float 1, Stopped).
Proof.
  split; [reflexivity|].
  apply (proj2 (proj2 (stop_is_final (cfg125 None) WatcherObj.new_watcher true
           [WatcherObj.OpStartInBackground; WatcherObj.OpStop false]
           WatcherObj.OpStartForever (fun _ => false)
           [Opened [(PStr "e", false)] StreamClosed]))).
  reflexivity.
Defined.

End WatcherClaims.


(* ------------------------------------------------------------------ *)
(** ** Further properties of [parse_event] *)

Module ParserExtraFacts.
Import Py Parser.

Lemma table_lookup_in t k v : table_lookup t k = Some v -> In (k, v) t.
Proof.
  induction t as [|[k' v'] t IH]; simpl; [discriminate|].
  destruct (String.eqb k k') eqn:E; intros H.
  - inversion H; subst. apply String.eqb_eq in E; subst. left; reflexivity.
  - right. apply IH, H.
Qed.

Lemma lower_char_idem c : lower_char (lower_char c) = lower_char c.
Proof. destruct c as [[] [] [] [] [] [] [] []]; reflexivity. Qed.

Lemma lower_idem s : lower (lower s) = lower s.
Proof.
  induction s as [|c s IH]; simpl; [reflexivity|].
  rewrite lower_char_idem, IH. reflexivity.
Qed.

Lemma safe_attrs_dict x :
  exists attrs,
    (a1 <- mget (PDict x) "Attributes" ;;
     attrs <- (if truthy a1 then Ok a1 else
               a2 <- mget (PDict x) "attributes" ;; Ok (py_or a2 (PDict []))) ;;
     match attrs with
     | PDict d => Ok d
     | _ => Ok []
     end) = Ok attrs.
Proof.
  cbn [mget bind]. destruct (truthy (dget x "Attributes")); cbn [bind];
    [destruct (dget x "Attributes") | destruct (py_or (dget x "attributes") (PDict []))];
    eexists; reflexivity.
Qed.

(** The attributes lookup raises exactly when the first truthy of [Actor]
    and [actor] is not a dict. *)
Lemma safe_attrs_cases d :
  let actor := py_or (dget d "Actor") (dget d "actor") in
  (truthy actor = true /\ (forall a, actor <> PDict a) /\
   _safe_get_actor_attributes d = Raise AttributeError) \/
  ((truthy actor = false \/ exists a, actor = PDict a) /\
   exists attrs, _safe_get_actor_attributes d = Ok attrs).
Proof.
  cbv zeta. unfold _safe_get_actor_attributes.
  destruct (py_or (dget d "Actor") (dget d "actor")) as [| b | z | f | s | l | a];
    unfold py_or; simpl.
  - right. split; [left; reflexivity | eexists; reflexivity].
  - destruct b; simpl; [left | right].
    + split; [reflexivity|]. split; [intros a H; discriminate | reflexivity].
    + split; [left; reflexivity | eexists; reflexivity].
  - destruct (Z.eqb z 0); simpl; [right | left].
    + split; [left; reflexivity | eexists; reflexivity].
    + split; [reflexivity|]. split; [intros a H; discriminate | reflexivity].
  - destruct (PrimFloat.eqb f 0); simpl; [right | left].
    + split; [left; reflexivity | eexists; reflexivity].
    + split; [reflexivity|]. split; [intros a H; discriminate | reflexivity].
  - destruct (String.eqb s ""); simpl; [right | left].
    + split; [left; reflexivity | eexists; reflexivity].
    + split; [reflexivity|]. split; [intros a H; discriminate | reflexivity].
  - destruct l; simpl; [right | left].
    + split; [left; reflexivity | eexists; reflexivity].
    + split; [reflexivity|]. split; [intros a H; discriminate | reflexivity].
  - right. split; [right; exists a; reflexivity|].
    destruct a as [|p a]; [exact (safe_attrs_dict []) | exact (safe_attrs_dict (p :: a))].
Qed.

Lemma build_event_raises dom act ts d :
  (exists e, build_event dom act ts d = Raise e) <->
  (exists e, _safe_get_actor_attributes d = Raise e).
Proof.
  unfold build_event, _extract_container_info.
  destruct (String.eqb dom "container");
    destruct (_safe_get_actor_attributes d) as [a|e]; simpl;
    split; intros [e' H]; try discriminate; eauto.
Qed.

Lemma exit_code_scan_shape attrs d keys :
  exit_code_scan attrs d keys = PNone \/ exists z, exit_code_scan attrs d keys = PInt z.
Proof.
  induction keys as [|k ks IH]; simpl; [left; reflexivity|].
  destruct (is_none (if is_none (dget attrs k) then dget d k else dget attrs k));
    [exact IH|].
  destruct (py_int _); [right; eexists; reflexivity | exact IH].
Qed.

Lemma py_or_unknown_truthy v : truthy (py_or v unknown_id) = true.
Proof. unfold py_or. destruct (truthy v) eqn:E; [exact E | reflexivity]. Qed.

Lemma py_or_none v w : py_or (py_or v PNone) w = py_or v w.
Proof. unfold py_or. destruct (truthy v) eqn:E; [rewrite E|]; reflexivity. Qed.

(** A truthy normalized action is neither a list nor a dict, and a string
    action is lower-case. *)
Lemma normalize_action_shape ra act :
  _normalize_action ra = Ok act -> truthy act = true ->
  (forall l, act <> PList l) /\ (forall x, act <> PDict x) /\
  (forall s, act = PStr s -> lower s = s).
Proof.
  unfold _normalize_action.
  destruct (truthy ra) eqn:Hra; simpl.
  2: { intros H; inversion H; subst; discriminate. }
  destruct ra as [| b | z | f | s | l | x]; cbn [action_table_get bind];
    try discriminate;
    try (intros H _; inversion H; subst;
         split; [intros ? ?; discriminate|];
         split; [intros ? ?; discriminate | intros ? ?; discriminate]).
  destruct (table_lookup _ACTION_NORMALIZATION s) as [v|] eqn:Ht.
  - apply table_lookup_in in Ht.
    unfold _ACTION_NORMALIZATION in Ht; simpl in Ht.
    repeat destruct Ht as [Ht|Ht]; try contradiction;
      inversion Ht; subst; simpl; intros H _; inversion H; subst;
      (split; [intros ? ?; discriminate|]);
      (split; [intros ? ?; discriminate|]);
      intros s' Hs; inversion Hs; reflexivity.
  - intros H _; inversion H; subst.
    split; [intros ? ?; discriminate|].
    split; [intros ? ?; discriminate|].
    intros s' Hs; inversion Hs; apply lower_idem.
Qed.

End ParserExtraFacts.

Module ParserExtras.
Import Py Parser ParserFacts ParserExtraFacts.

(** The normalizer is insensitive to case and surrounding
    whitespace for the verbs that [_ACTION_NORMALIZATION] maps to
    themselves: such a string action comes out as its stripped lower-case
    form. *)
Theorem normalize_action_self_verbs (s : string)
  (Hin : In (lower (strip s))
           ["create"; "start"; "stop"; "die"; "destroy"; "restart";
            "pause"; "unpause"; "pull"; "push"]) :
  _normalize_action (PStr s) = Ok (PStr (lower (strip s))).
Proof.
  unfold _normalize_action, action_table_get, bind.
  destruct (table_lookup _ACTION_NORMALIZATION s) as [v|] eqn:Ht.
  - apply table_lookup_in in Ht.
    unfold _ACTION_NORMALIZATION in Ht; simpl in Ht.
    repeat destruct Ht as [Ht|Ht]; try contradiction;
      inversion Ht; subst; vm_compute in Hin |- *;
      first [reflexivity | intuition discriminate].
  - destruct (truthy (PStr s)) eqn:Hs; [reflexivity|].
    simpl in Hs. destruct (String.eqb s "") eqn:E; [|discriminate].
    apply String.eqb_eq in E; subst. vm_compute in Hin. intuition discriminate.
Qed.

Lemma normalize_action_self_verbs_witness :
  In (lower (strip "  Die ")) ["create"; "start"; "stop"; "die"; "destroy";
        "restart"; "pause"; "unpause"; "pull"; "push"] /\
  _normalize_action (PStr "  Die ") = Ok (PStr "die").
Proof.
  split; [vm_compute; tauto|].
  exact (normalize_action_self_verbs "  Die " ltac:(vm_compute; tauto)).
Defined.

(** Once the domain, the action and the timestamp have been
    read, [parse_event] drops the event (returns [None]) exactly when the
    first truthy of [Actor] and [actor] is not a dict; a missing or falsy
    actor, or a dict one, gives an event. *)
Theorem parse_event_bad_actor (now : float) (d : dict) (dom : string)
  (act : pyval) (ts : float)
  (Hdom : py_lower (domain_of d) = Ok dom)
  (Hact : _normalize_action (raw_action_of d) = Ok act)
  (Htr : truthy act = true)
  (Hts : _to_timestamp now d = Ok ts) :
  parse_event now (PDict d) = Ok None <->
  (truthy (py_or (dget d "Actor") (dget d "actor")) = true /\
   forall a, py_or (dget d "Actor") (dget d "actor") <> PDict a).
Proof.
  cbn [parse_event]. rewrite Hdom. cbn [bind]. rewrite Hact. cbn [bind].
  rewrite Htr. cbn [negb]. rewrite Hts. cbn [bind].
  pose proof (build_event_raises dom act ts d) as Hb.
  destruct (safe_attrs_cases d) as [(Ht & Hn & Hr) | (Hg & attrs & Hok)].
  - assert (Hx : exists e, build_event dom act ts d = Raise e)
      by (apply Hb; eauto).
    destruct Hx as [e He]. rewrite He. split; [intros _; auto | reflexivity].
  - destruct (build_event dom act ts d) as [ne|e] eqn:He.
    + split; [intros H; discriminate|].
      intros [Ht Hn]. destruct Hg as [Hf | [a Ha]].
      * rewrite Ht in Hf; discriminate.
      * exfalso; exact (Hn a Ha).
    + exfalso. destruct (proj1 Hb (ex_intro _ e eq_refl)) as [e' He'].
      rewrite Hok in He'; discriminate.
Qed.

Lemma parse_event_bad_actor_witness :
  let d := [("Type", PStr "container"); ("Action", PStr "die");
            ("time", PInt 1700000000); ("Actor", PStr "x")] in
  parse_event 0%float (PDict d) = Ok None /\
  (truthy (py_or (dget d "Actor") (dget d "actor")) = true /\
   forall a, py_or (dget d "Actor") (dget d "actor") <> PDict a).
Proof.
  cbv zeta.
  pose proof (parse_event_bad_actor 0%float
    [("Type", PStr "container"); ("Action", PStr "die");
     ("time", PInt 1700000000); ("Actor", PStr "x")]
    "container" (PStr "die") 1700000000%float
    ltac:(vm_compute; reflexivity) ltac:(vm_compute; reflexivity)
    ltac:(vm_compute; reflexivity) ltac:(vm_compute; reflexivity)) as H.
  assert (Hr : parse_event 0%float
    (PDict [("Type", PStr "container"); ("Action", PStr "die");
            ("time", PInt 1700000000); ("Actor", PStr "x")]) = Ok None)
    by (vm_compute; reflexivity).
  split; [exact Hr | exact (proj1 H Hr)].
Defined.

(** Every event [parse_event] returns has a lower-case
    domain, a truthy action that is neither a list nor a dict (and
    lower-case when it is a string), a truthy id, and an exit code that is
    [None] or an [int]. *)
Theorem parse_event_event_shape (now : float) (rv : pyval) (ev : NormalizedEvent)
  (H : parse_event now rv = Ok (Some ev)) :
  lower (domain ev) = domain ev /\
  truthy (action ev) = true /\
  (forall l, action ev <> PList l) /\ (forall x, action ev <> PDict x) /\
  (forall s, action ev = PStr s -> lower s = s) /\
  truthy (id ev) = true /\
  (exit_code ev = PNone \/ exists z, exit_code ev = PInt z).
Proof.
  destruct (parse_event_some_inv _ _ _ H)
    as (d & dom & act & _ & Hdom & Hact & Htr & _ & Hb).
  destruct (build_event_fields _ _ _ _ _ Hb) as (Hd & Ha & _ & _).
  destruct (normalize_action_shape _ _ Hact Htr) as (Hl & Hx & Hs).
  rewrite Hd, Ha.
  split.
  { unfold py_lower in Hdom. destruct (domain_of d); try discriminate.
    inversion Hdom. apply lower_idem. }
  split; [exact Htr|]. split; [exact Hl|]. split; [exact Hx|].
  split; [exact Hs|].
  unfold build_event, _extract_container_info in Hb.
  destruct (String.eqb dom "container").
  - destruct (_safe_get_actor_attributes d); cbn [bind] in Hb; [|discriminate].
    injection Hb as Hev. rewrite <- Hev.
    split; [apply py_or_unknown_truthy | exact (exit_code_scan_shape _ d exit_keys)].
  - destruct (_safe_get_actor_attributes d); cbn [bind] in Hb; [|discriminate].
    injection Hb as Hev. rewrite <- Hev; simpl.
    split; [apply py_or_unknown_truthy | left; reflexivity].
Qed.

Lemma parse_event_event_shape_witness :
  exists ev,
    parse_event 0%float
      (PDict [("Type", PStr "Container"); ("Action", PStr " Die ");
              ("Actor", PDict [("Attributes", PDict [("exitCode", PStr "137")])])])
      = Ok (Some ev) /\
    lower (domain ev) = domain ev /\ truthy (action ev) = true /\
    (forall l, action ev <> PList l) /\ (forall x, action ev <> PDict x) /\
    (forall s, action ev = PStr s -> lower s = s) /\
    truthy (id ev) = true /\
    (exit_code ev = PNone \/ exists z, exit_code ev = PInt z).
Proof.
  eexists. split; [vm_compute; reflexivity|].
  apply (parse_event_event_shape 0%float
    (PDict [("Type", PStr "Container"); ("Action", PStr " Die ");
            ("Actor", PDict [("Attributes", PDict [("exitCode", PStr "137")])])])).
  vm_compute; reflexivity.
Defined.

(** An event of any domain other than ["container"] never
    carries an exit code, takes its id from the raw [id] or [ID] only (not
    from the actor attributes), and its name and image from the actor
    attributes' [name] and [image]. *)
Theorem parse_event_non_container (now : float) (rv : pyval) (ev : NormalizedEvent)
  (H : parse_event now rv = Ok (Some ev))
  (Hd : domain ev <> "container") :
  exit_code ev = PNone /\
  id ev = py_or (py_or (dget (raw ev) "id") (dget (raw ev) "ID")) unknown_id /\
  name ev = dget (attributes ev) "name" /\
  image ev = dget (attributes ev) "image".
Proof.
  destruct (parse_event_some_inv _ _ _ H)
    as (d & dom & act & _ & _ & _ & _ & _ & Hb).
  destruct (build_event_fields _ _ _ _ _ Hb) as (Hdm & _ & _ & _).
  unfold build_event in Hb.
  destruct (String.eqb dom "container") eqn:E.
  - apply String.eqb_eq in E. subst. contradiction.
  - destruct (_safe_get_actor_attributes d); cbn [bind] in Hb; [|discriminate].
    inversion Hb; subst; simpl.
    rewrite py_or_none. auto.
Qed.

Lemma parse_event_non_container_witness :
  exists ev,
    parse_event 0%float
      (PDict [("Type", PStr "image"); ("Action", PStr "pull"); ("ID", PStr "sha256:ab");
              ("exitCode", PInt 1);
              ("Actor", PDict [("Attributes", PDict [("name", PStr "alpine")])])])
      = Ok (Some ev) /\
    exit_code ev = PNone /\
    id ev = py_or (py_or (dget (raw ev) "id") (dget (raw ev) "ID")) unknown_id /\
    name ev = dget (attributes ev) "name" /\
    image ev = dget (attributes ev) "image".
Proof.
  eexists. split; [vm_compute; reflexivity|].
  apply (parse_event_non_container 0%float
    (PDict [("Type", PStr "image"); ("Action", PStr "pull"); ("ID", PStr "sha256:ab");
            ("exitCode", PInt 1);
            ("Actor", PDict [("Attributes", PDict [("name", PStr "alpine")])])])).
  - vm_compute; reflexivity.
  - vm_compute; discriminate.
Defined.

End ParserExtras.

(* ------------------------------------------------------------------ *)
(** ** Further properties of the watcher loop *)

Module WatcherExtraFacts.
Import Py Watcher WatcherFacts.

Lemma iter_succ_r {A} (g : A -> A) (i : nat) (b : A) :
  Nat.iter i g (g b) = Nat.iter (S i) g b.
Proof.
  induction i as [|i IH]; simpl; [reflexivity|]. rewrite IH. reflexivity.
Qed.

(** The observations of dispatching one item. *)
Definition item_obs (p : pyval * bool) : list obs :=
  ODispatch (fst p) :: (if snd p then [OCallbackError] else []).

(** A stop seen before the [j]-th item: the first [j] items are dispatched
    and the [for] loop breaks. *)
Lemma dispatch_stop flag items : forall st j,
  (forall i, (i < j)%nat -> flag (reads st + i)%nat = false) ->
  flag (reads st + j)%nat = true -> (j < List.length items)%nat ->
  exists st',
    dispatch flag st items = (flat_map item_obs (firstn j items), st', true) /\
    reads st' = (reads st + j + 1)%nat.
Proof.
  induction items as [|[ev raises] rest IH]; intros st j Hoff Hon Hj;
    simpl in Hj; [lia|].
  destruct j as [|j].
  - rewrite Nat.add_0_r in Hon. simpl. rewrite Hon.
    exists (tick st). split; [reflexivity | simpl; lia].
  - simpl. pose proof (Hoff 0%nat ltac:(lia)) as H0.
    rewrite Nat.add_0_r in H0. rewrite H0.
    destruct (IH (tick st) j) as (st' & Hd & Hr).
    + intros i Hi. simpl. rewrite <- Nat.add_succ_r. apply Hoff. lia.
    + simpl. rewrite <- Nat.add_succ_r. exact Hon.
    + lia.
    + rewrite Hd. exists st'. split; [reflexivity|]. simpl in Hr. lia.
Qed.

Lemma dispatch_no_fatal flag st items :
  ~ In OFatal (fst (fst (dispatch flag st items))).
Proof.
  revert st. induction items as [|[ev raises] rest IH]; intros st; simpl; [tauto|].
  destruct (flag (reads st)); [simpl; tauto|].
  specialize (IH (tick st)).
  destruct (dispatch flag (tick st) rest) as [[o s] b]. simpl in *.
  intros [H|H]; [discriminate|].
  apply in_app_or in H. destruct H as [H|H]; [|contradiction].
  destruct raises; simpl in H; [destruct H as [H|H]; [discriminate|contradiction]|contradiction].
Qed.

Lemma dispatch_reads flag st items :
  (reads st <= reads (snd (fst (dispatch flag st items))))%nat.
Proof.
  revert st. induction items as [|[ev raises] rest IH]; intros st; simpl; [lia|].
  destruct (flag (reads st)); [simpl; lia|].
  specialize (IH (tick st)).
  destruct (dispatch flag (tick st) rest) as [[o s] b]. simpl in *. lia.
Qed.

(** Without a retry ceiling, an [except] clause never logs the fatal
    condition, reads no flag and never breaks. *)
Lemma handle_error_unbounded_shape cfg st e :
  max_retries cfg = None ->
  ~ In OFatal (fst (fst (handle_error cfg st e))) /\
  reads (snd (fst (handle_error cfg st e))) = reads st /\
  snd (handle_error cfg st e) <> Break.
Proof.
  intros Hm. unfold handle_error, exceeded. rewrite Hm.
  destruct (recoverable e), (sleep_ok (backoff st)); simpl; intuition congruence.
Qed.

(** Without a retry ceiling, one iteration never logs the fatal condition,
    and it breaks only when its last read of the stop flag saw it set. *)
Lemma run_attempt_unbounded cfg flag st a :
  max_retries cfg = None ->
  ~ In OFatal (fst (fst (run_attempt cfg flag st a))) /\
  (reads st <= reads (snd (fst (run_attempt cfg flag st a))))%nat /\
  (snd (run_attempt cfg flag st a) = Break ->
   exists k, S k = reads (snd (fst (run_attempt cfg flag st a))) /\
             (reads st <= k)%nat /\ flag k = true).
Proof.
  intros Hm.
  assert (Ha : forall s,
    ~ In OFatal (fst (fst (after_stream cfg flag s))) /\
    reads (snd (fst (after_stream cfg flag s))) = S (reads s) /\
    (snd (after_stream cfg flag s) = Break -> flag (reads s) = true)).
  { intros s. unfold after_stream.
    destruct (flag (reads s)) eqn:Hf; [simpl; intuition congruence|].
    destruct (sleep_ok (backoff s)); [simpl; intuition congruence|].
    destruct (handle_error_unbounded_shape cfg (tick s) OtherError Hm) as (H1 & H2 & H3).
    split; [exact H1|]. split; [exact H2|]. intros H; contradiction. }
  destruct a as [e | items fin]; unfold run_attempt.
  - destruct (handle_error_unbounded_shape cfg st e Hm) as (H1 & H2 & H3).
    destruct (handle_error cfg st e) as [[o s] out]. simpl in *.
    split; [intuition congruence|]. split; [lia|]. intros H; contradiction.
  - unfold stream_phase.
    pose proof (dispatch_no_fatal flag (reset cfg st) items) as Hd.
    pose proof (dispatch_reads flag (reset cfg st) items) as Hdr.
    destruct (dispatch flag (reset cfg st) items) as [[o s1] brk].
    simpl in Hd, Hdr.
    assert (Hx : ~ In OFatal (fst (fst (stream_exit cfg flag s1 brk fin))) /\
                 (reads s1 <= reads (snd (fst (stream_exit cfg flag s1 brk fin))))%nat /\
                 (snd (stream_exit cfg flag s1 brk fin) = Break ->
                  exists k, S k = reads (snd (fst (stream_exit cfg flag s1 brk fin))) /\
                            (reads s1 <= k)%nat /\ flag k = true)).
    { unfold stream_exit.
      destruct brk; [|destruct fin as [|e]];
        try (destruct (Ha s1) as (A1 & A2 & A3);
             split; [exact A1|]; split; [lia|];
             intros H; exists (reads s1); split; [symmetry; exact A2|];
             split; [lia | exact (A3 H)]).
      destruct (handle_error_unbounded_shape cfg s1 e Hm) as (H1 & H2 & H3).
      split; [exact H1|]. split; [lia|]. intros H; contradiction. }
    destruct (stream_exit cfg flag s1 brk fin) as [[o' s2] out]. simpl in *.
    destruct Hx as (Hx1 & Hx2 & Hx3). split; [|split; [lia|]].
    + intros [H|H]; [discriminate|].
      apply in_app_or in H. destruct H; contradiction.
    + intros H. destruct (Hx3 H) as (k & Hk1 & Hk2 & Hk3).
      exists k. split; [exact Hk1|]. split; [lia | exact Hk3].
Qed.

End WatcherExtraFacts.

Module WatcherExtras.
Import Py Watcher WatcherFacts WatcherExtraFacts.

(** With a retry ceiling [m] and the retry counter at [r],
    [m - r + 1] consecutive failing opens with transport/API errors (stop
    never requested, and the [m - r] backoffs to sleep valid durations)
    each open once; the first [m - r] sleep the current backoff, escalated
    after each sleep; the last logs the fatal condition with the counter at
    [m + 1] and stops the loop, whatever attempts would follow. *)
Theorem retry_ceiling_general (cfg : config) (flag : nat -> bool) (st : wstate)
  (m : Z) (n : nat) (errs : list exc_kind) (rest : list attempt)
  (Hm : max_retries cfg = Some m) (Hn : retries st + Z.of_nat n = m)
  (Hf : forall k, flag k = false) (Hlen : List.length errs = S n)
  (Hrec : Forall (fun e => recoverable e = true) errs)
  (Hs : forall i, (i < n)%nat ->
        sleep_ok (Nat.iter i (next_backoff cfg) (backoff st)) = true) :
  exists st',
    run cfg flag st (map OpenFailed errs ++ rest) =
    (flat_map (fun i => [OOpen; OSleep (Nat.iter i (next_backoff cfg) (backoff st))])
              (seq 0 n) ++ [OOpen; OFatal], st', Stopped) /\
    retries st' = m + 1.
Proof.
  revert st errs Hn Hlen Hrec Hs.
  induction n as [|n IH]; intros st errs Hn Hlen Hrec Hs.
  - destruct errs as [|e [|e' errs]]; simpl in Hlen; try discriminate.
    inversion Hrec; subst.
    simpl. rewrite Hf.
    rewrite handle_error_fatal by
      (try assumption; unfold exceeded; rewrite Hm; simpl; apply Z.ltb_lt; lia).
    eexists. split; [reflexivity|]. simpl. lia.
  - destruct errs as [|e errs]; simpl in Hlen; [discriminate|].
    inversion Hrec; subst.
    cbn [map app]. rewrite run_open_failed by apply Hf.
    rewrite handle_error_retry
      by first [assumption | exact (Hs 0%nat ltac:(lia))
               | unfold exceeded; rewrite Hm; simpl; apply Z.ltb_ge; lia].
    cbv iota beta.
    destruct (IH (mkState (retries (tick st) + 1)
                   (next_backoff cfg (backoff (tick st))) (reads (tick st)))
                 errs ltac:(simpl; lia) ltac:(lia) H2) as (st' & Hr & Hst').
    { intros i Hi. simpl. rewrite iter_succ_r. apply Hs. lia. }
    rewrite Hr. exists st'. split; [|exact Hst'].
    f_equal. f_equal. simpl. do 3 f_equal.
    rewrite <- seq_shift, (flat_map_concat_map _ (map S (seq 0 n))), map_map,
      <- flat_map_concat_map.
    apply flat_map_ext. intros i. rewrite iter_succ_r. reflexivity.
Qed.

Lemma retry_ceiling_general_witness :
  exists st',
    run (mkConfig 1%float 2%float 30%float (Some 2)) (fun _ => false)
        (mkState 0 1%float 0) (map OpenFailed [OSError; APIError; DockerException]
                                 ++ [Opened [] StreamClosed]) =
    (flat_map (fun i => [OOpen; OSleep (Nat.iter i
        (next_backoff (mkConfig 1%float 2%float 30%float (Some 2))) 1%float)])
      (seq 0 2) ++ [OOpen; OFatal], st', Stopped) /\ retries st' = 2 + 1.
Proof.
  exact (retry_ceiling_general (mkConfig 1%float 2%float 30%float (Some 2))
           (fun _ => false) (mkState 0 1%float 0) 2 2
           [OSError; APIError; DockerException] [Opened [] StreamClosed]
           eq_refl eq_refl (fun _ => eq_refl) eq_refl
           ltac:(repeat constructor)
           ltac:(intros [|[|i]] Hi; [vm_compute; reflexivity
                                    | vm_compute; reflexivity | lia])).
Defined.

(** When [stop()] is first seen by the check before the
    [j]-th item of an opened stream (the stop event, once set, stays set),
    exactly the first [j] items are dispatched and the loop ends: no sleep,
    no reconnect, however the stream would have ended. *)
Theorem stop_mid_stream (cfg : config) (flag : nat -> bool) (st : wstate)
  (items : list (pyval * bool)) (fin : stream_end) (rest : list attempt) (j : nat)
  (Hmono : forall k k', (k <= k')%nat -> flag k = true -> flag k' = true)
  (Hoff : forall k, (k < reads st + 1 + j)%nat -> flag k = false)
  (Hon : flag (reads st + 1 + j)%nat = true)
  (Hj : (j < List.length items)%nat) :
  exists st',
    run cfg flag st (Opened items fin :: rest) =
    (OOpen :: flat_map item_obs (firstn j items), st', Stopped).
Proof.
  rewrite run_opened by (apply Hoff; lia).
  unfold stream_phase.
  destruct (dispatch_stop flag items (reset cfg (tick st)) j) as (s1 & Hd & Hr).
  - intros i Hi. simpl. apply Hoff. lia.
  - simpl. match goal with |- flag ?x = true =>
      replace x with (reads st + 1 + j)%nat by lia end.
    exact Hon.
  - exact Hj.
  - rewrite Hd. simpl stream_exit. unfold after_stream.
    rewrite (Hmono (reads st + 1 + j)%nat (reads s1)) by (simpl in Hr; lia || exact Hon).
    exists (tick s1). rewrite app_nil_r. reflexivity.
Qed.

Lemma stop_mid_stream_witness :
  exists st',
    run (mkConfig 1%float 2%float 5%float None) (fun k => Nat.leb 3 k)
        (mkState 0 1%float 0)
        [Opened [(PInt 1, false); (PInt 2, true); (PInt 3, false)] StreamClosed;
         OpenFailed APIError] =
    (OOpen :: flat_map item_obs (firstn 2 [(PInt 1, false); (PInt 2, true);
                                         (PInt 3, false)]), st', Stopped).
Proof.
  apply (stop_mid_stream (mkConfig 1%float 2%float 5%float None) (fun k => Nat.leb 3 k)
           (mkState 0 1%float 0) [(PInt 1, false); (PInt 2, true); (PInt 3, false)]
           StreamClosed [OpenFailed APIError] 2).
  - intros k k' Hk H. apply Nat.leb_le. apply Nat.leb_le in H. lia.
  - intros k Hk. apply Nat.leb_gt. simpl in Hk. lia.
  - reflexivity.
  - simpl. lia.
Defined.

(** Without a retry ceiling the loop never logs the fatal
    condition, and when it ends by [break] ([Stopped]) the last read of the
    stop flag it performed saw the flag set.  (It may also end by an
    exception from [time.sleep], [Crashed], or run out of attempts.) *)
Theorem unbounded_never_fatal (cfg : config) (flag : nat -> bool) (st : wstate)
  (atts : list attempt) (Hm : max_retries cfg = None) :
  ~ In OFatal (fst (fst (run cfg flag st atts))) /\
  (snd (run cfg flag st atts) = Stopped ->
   exists k, S k = reads (snd (fst (run cfg flag st atts))) /\
             (reads st <= k)%nat /\ flag k = true).
Proof.
  revert st. induction atts as [|a rest IH]; intros st; simpl.
  - destruct (flag (reads st)) eqn:Hf; simpl.
    + split; [tauto|]. intros _. exists (reads st).
      split; [reflexivity|]. split; [lia | exact Hf].
    + split; [tauto | discriminate].
  - destruct (flag (reads st)) eqn:Hf.
    + simpl. split; [tauto|]. intros _. exists (reads st).
      split; [reflexivity|]. split; [lia | exact Hf].
    + pose proof (run_attempt_unbounded cfg flag (tick st) a Hm) as (H1 & H2 & H3).
      destruct (run_attempt cfg flag (tick st) a) as [[o s] out]. simpl in *.
      destruct out.
      * specialize (IH s).
        destruct (run cfg flag s rest) as [[o' s'] r]. simpl in *.
        destruct IH as [IH1 IH2]. split.
        -- intros H. apply in_app_or in H. destruct H; contradiction.
        -- intros Hr. destruct (IH2 Hr) as (k & Hk1 & Hk2 & Hk3).
           exists k. split; [exact Hk1|]. split; [lia | exact Hk3].
      * simpl. split; [exact H1|]. intros _.
        destruct (H3 eq_refl) as (k & Hk1 & Hk2 & Hk3).
        exists k. split; [exact Hk1|]. split; [lia | exact Hk3].
      * simpl. split; [exact H1 | discriminate].
Qed.

Lemma unbounded_never_fatal_witness :
  ~ In OFatal (fst (fst (run (mkConfig 1%float 2%float 5%float None) (fun k => Nat.leb 6 k)
                           (mkState 0 1%float 0)
                           [OpenFailed APIError; OpenFailed OSError;
                            Opened [(PInt 1, true)] (StreamFailed DockerException);
                            OpenFailed OtherError]))) /\
  (snd (run (mkConfig 1%float 2%float 5%float None) (fun k => Nat.leb 6 k)
          (mkState 0 1%float 0)
          [OpenFailed APIError; OpenFailed OSError;
           Opened [(PInt 1, true)] (StreamFailed DockerException);
           OpenFailed OtherError]) = Stopped ->
   exists k, S k = reads (snd (fst (run (mkConfig 1%float 2%float 5%float None)
                                      (fun k => Nat.leb 6 k) (mkState 0 1%float 0)
                                      [OpenFailed APIError; OpenFailed OSError;
                                       Opened [(PInt 1, true)] (StreamFailed DockerException);
                                       OpenFailed OtherError]))) /\
             (0 <= k)%nat /\ Nat.leb 6 k = true).
Proof.
  exact (unbounded_never_fatal (mkConfig 1%float 2%float 5%float None)
           (fun k => Nat.leb 6 k) (mkState 0 1%float 0)
           [OpenFailed APIError; OpenFailed OSError;
            Opened [(PInt 1, true)] (StreamFailed DockerException);
            OpenFailed OtherError] eq_refl).
Defined.




End WatcherExtras.

(* ------------------------------------------------------------------ *)
(** ** Properties of the Discord client and of the event callback *)

Module DiscordExtraFacts.
Import Py Parser Discord.

Lemma table_get_cases {A} (t : list (string * A)) key default :
  ((exists l, key = PList l) \/ (exists x, key = PDict x)) /\
    table_get t key default = Raise TypeError \/
  ((forall l, key <> PList l) /\ (forall x, key <> PDict x)) /\
    exists v, table_get t key default = Ok v.
Proof.
  destruct key; simpl;
    try (right; split; [split; intros ? ?; discriminate | eexists; reflexivity]);
    left; split; eauto.
Qed.

Lemma slice12_cases v :
  ((forall s, v <> PStr s) /\ (forall l, v <> PList l) /\ slice12 v = Raise TypeError) \/
  ((exists s, v = PStr s) \/ (exists l, v = PList l)) /\ exists w, slice12 v = Ok w.
Proof.
  destruct v; simpl;
    try (left; split; [intros ? ?; discriminate|];
         split; [intros ? ?; discriminate | reflexivity]);
    right; split; eauto.
Qed.

(** [_build_embed] raises [TypeError] exactly when the action is
    unhashable, or the id is sliced and is neither a string nor a list;
    otherwise it returns an embed. *)
Lemma build_embed_cases fmt ev :
  truthy (id ev) = true ->
  let C := (exists l, action ev = PList l) \/ (exists x, action ev = PDict x) \/
           (domain ev <> "network" /\ (forall s, id ev <> PStr s) /\
            (forall l, id ev <> PList l)) in
  (C /\ _build_embed fmt ev = Raise TypeError) \/
  (~ C /\ exists emb, _build_embed fmt ev = Ok emb).
Proof.
  intros Hid C. unfold C; clear C. unfold _build_embed.
  destruct (table_get_cases ACTION_EMOJIS (action ev) "") as [[Hc He] | [[Hl Hx] [em He]]].
  - left. rewrite He. cbn [bind]. split; [|reflexivity]. tauto.
  - rewrite He. cbn [bind].
    destruct (table_get_cases ACTION_COLORS (action ev) 8421504)
      as [[Hc _] | [_ [col Hc]]].
    { exfalso. destruct Hc as [[l Hc] | [x Hc]]; [exact (Hl l Hc) | exact (Hx x Hc)]. }
    rewrite Hc. cbn [bind]. rewrite Hid.
    assert (Hnc : ~ ((exists l, action ev = PList l) \/ (exists x, action ev = PDict x))).
    { intros [[l H] | [x H]]; [exact (Hl l H) | exact (Hx x H)]. }
    destruct (String.eqb (domain ev) "container") eqn:Ec.
    + apply String.eqb_eq in Ec.
      destruct (slice12_cases (id ev)) as [(Hs & Hls & Hr) | (Hok & w & Hr)];
        rewrite Hr; cbn [bind].
      * left. split; [|reflexivity]. right; right.
        split; [rewrite Ec; discriminate | split; assumption].
      * right. split; [|eexists; reflexivity].
        intros [H | [H | (_ & Hs & Hls)]]; [tauto | tauto |].
        destruct Hok as [[s Hs'] | [l Hl']]; [exact (Hs s Hs') | exact (Hls l Hl')].
    + destruct (String.eqb (domain ev) "network") eqn:En.
      * apply String.eqb_eq in En. right. split; [|eexists; reflexivity].
        intros [H | [H | (Hn & _ & _)]]; [tauto | tauto | exact (Hn En)].
      * destruct (slice12_cases (id ev)) as [(Hs & Hls & Hr) | (Hok & w & Hr)];
          rewrite Hr; cbn [bind].
        -- left. split; [|reflexivity]. right; right.
           split; [intros Hn; rewrite Hn in En; discriminate | split; assumption].
        -- right. split; [|eexists; reflexivity].
           intros [H | [H | (_ & Hs & Hls)]]; [tauto | tauto |].
           destruct Hok as [[s Hs'] | [l Hl']]; [exact (Hs s Hs') | exact (Hls l Hl')].
Qed.

Lemma build_event_id_truthy dom act ts d ev :
  build_event dom act ts d = Ok ev -> truthy (id ev) = true.
Proof.
  unfold build_event, _extract_container_info.
  destruct (String.eqb dom "container");
    destruct (_safe_get_actor_attributes d); cbn [bind]; intros H; try discriminate;
    injection H as Hev; rewrite <- Hev; apply ParserExtraFacts.py_or_unknown_truthy.
Qed.

(** A returned event has a truthy id and a hashable action. *)
Lemma parse_event_embed_ready now rv ev :
  parse_event now rv = Ok (Some ev) ->
  truthy (id ev) = true /\ (forall l, action ev <> PList l) /\
  (forall x, action ev <> PDict x).
Proof.
  intros H.
  destruct (ParserFacts.parse_event_some_inv _ _ _ H)
    as (d & dom & act & _ & _ & Hact & Htr & _ & Hb).
  destruct (ParserFacts.build_event_fields _ _ _ _ _ Hb) as (_ & Ha & _ & _).
  destruct (ParserExtraFacts.normalize_action_shape _ _ Hact Htr) as (Hl & Hx & _).
  rewrite Ha. split; [exact (build_event_id_truthy _ _ _ _ _ Hb) | auto].
Qed.

End DiscordExtraFacts.

Module DiscordExtras.
Import Py Parser Discord Main Config DiscordExtraFacts.

(** For an event with a truthy id (every event
    [parse_event] returns has one), [_build_embed] raises [TypeError]
    exactly when the action is a list or a dict, or the domain is not
    ["network"] and the id is neither a string nor a list; otherwise it
    returns an embed. *)
Theorem build_embed_type_error (fmt : pyval -> string) (ev : NormalizedEvent)
  (Hid : truthy (id ev) = true) :
  (_build_embed fmt ev = Raise TypeError <->
   (exists l, action ev = PList l) \/ (exists x, action ev = PDict x) \/
   (domain ev <> "network" /\ (forall s, id ev <> PStr s) /\
    (forall l, id ev <> PList l))) /\
  (_build_embed fmt ev = Raise TypeError \/ exists emb, _build_embed fmt ev = Ok emb).
Proof.
  destruct (build_embed_cases fmt ev Hid) as [[HC Hr] | [HC [emb Hr]]]; rewrite Hr.
  - split; [split; [intros _; exact HC | reflexivity] | left; reflexivity].
  - split; [split; [discriminate | intros H; contradiction] | right; eauto].
Qed.

Lemma build_embed_type_error_witness :
  let ev := mkEvent "container" (PStr "die") (PInt 5) PNone PNone (PInt 137)
                    0%float [] [] in
  truthy (id ev) = true /\ _build_embed (fun _ => "") ev = Raise TypeError.
Proof.
  cbv zeta. split; [reflexivity|].
  apply (proj2 (proj1 (build_embed_type_error (fun _ => "")
    (mkEvent "container" (PStr "die") (PInt 5) PNone PNone (PInt 137) 0%float [] [])
    eq_refl))).
  right; right. split; [discriminate | split; intros ? ?; discriminate].
Defined.

(** With a webhook configured, the callback of [main]
    returns normally for every event [parse_event] yields and hands it to
    [send_event] once.  If the domain is not ["network"] and the id is
    neither a string nor a list, [send_event] raises [TypeError] before
    any request (the callback catches it); otherwise it posts the built
    embed once and reports success exactly for the status codes 200 and
    204. *)
Theorem callback_send_outcome (now : float) (fmt : pyval -> string) (c : client)
  (post : embed -> post_result) (raw_event : pyval) (ev : NormalizedEvent)
  (Hp : parse_event now raw_event = Ok (Some ev))
  (Hw : webhook_url c <> "") :
  docker_event_callback now (send_event fmt c post) raw_event =
    Ok (Some (ev, send_event fmt c post ev)) /\
  ((domain ev <> "network" /\ (forall s, id ev <> PStr s) /\ (forall l, id ev <> PList l)) ->
   send_event fmt c post ev = Raise TypeError) /\
  ((domain ev = "network" \/ (exists s, id ev = PStr s) \/ (exists l, id ev = PList l)) ->
   exists emb, _build_embed fmt ev = Ok emb /\
     send_event fmt c post ev =
       Ok (match post emb with
           | Response sc => Z.eqb sc 200 || Z.eqb sc 204
           | RequestException => false
           end, Some emb)).
Proof.
  destruct (parse_event_embed_ready _ _ _ Hp) as (Hid & Hl & Hx).
  assert (Hs : forall emb, _build_embed fmt ev = Ok emb ->
            send_event fmt c post ev =
              Ok (match post emb with
                  | Response sc => Z.eqb sc 200 || Z.eqb sc 204
                  | RequestException => false
                  end, Some emb)).
  { intros emb He. unfold send_event.
    destruct (String.eqb (webhook_url c) "") eqn:Ew.
    - apply String.eqb_eq in Ew. contradiction.
    - rewrite He. cbn [bind]. destruct (post emb); reflexivity. }
  split; [unfold docker_event_callback; rewrite Hp; reflexivity|].
  destruct (build_embed_cases fmt ev Hid) as [[HC Hr] | [HC [emb Hr]]].
  - split.
    + intros _. unfold send_event.
      destruct (String.eqb (webhook_url c) "") eqn:Ew.
      * apply String.eqb_eq in Ew. contradiction.
      * rewrite Hr. reflexivity.
    + intros Hok. exfalso.
      destruct HC as [[l H] | [[x H] | (Hn & Hs' & Hl')]];
        [exact (Hl l H) | exact (Hx x H) |].
      destruct Hok as [Hn' | [[s H] | [l H]]];
        [exact (Hn Hn') | exact (Hs' s H) | exact (Hl' l H)].
  - split.
    + intros H. exfalso. apply HC. right; right. exact H.
    + intros _. exists emb. split; [exact Hr | apply Hs, Hr].
Qed.

Lemma callback_send_outcome_witness :
  let raw_event := PDict [("Type", PStr "container"); ("Action", PStr "die");
                          ("id", PInt 5)] in
  let c := mkClient "https://discord.invalid/hook" 5 in
  exists ev,
    parse_event 0%float raw_event = Ok (Some ev) /\
    docker_event_callback 0%float (send_event (fun _ => "") c (fun _ => Response 204))
      raw_event = Ok (Some (ev, Raise TypeError)).
Proof.
  cbv zeta. eexists. split; [vm_compute; reflexivity|].
  destruct (callback_send_outcome 0%float (fun _ => "")
              (mkClient "https://discord.invalid/hook" 5) (fun _ => Response 204)
              (PDict [("Type", PStr "container"); ("Action", PStr "die"); ("id", PInt 5)])
              (mkEvent "container" (PStr "die") (PInt 5) PNone PNone PNone 0%float []
                 [("Type", PStr "container"); ("Action", PStr "die"); ("id", PInt 5)])
              ltac:(vm_compute; reflexivity) ltac:(discriminate)) as (H1 & H2 & _).
  rewrite H1, H2; [reflexivity|].
  split; [discriminate | split; intros ? ?; discriminate].
Defined.

(** Every action [_ACTION_NORMALIZATION] produces has its
    own non-empty emoji, so an embed built for it is titled with that
    emoji; all of them except ["pause"] and ["unpause"] have a color in
    [ACTION_COLORS], and those two get the gray default [0x808080]. *)
Theorem normalized_action_styled (fmt : pyval -> string) (ev : NormalizedEvent)
  (v : string) (emb : embed)
  (Ha : action ev = PStr v) (Hin : In v (map snd _ACTION_NORMALIZATION))
  (He : _build_embed fmt ev = Ok emb) :
  (exists em,
     assoc ACTION_EMOJIS v = Some em /\ em <> "" /\
     title emb = (em ++ " Docker Event Detected")%string) /\
  color emb = match assoc ACTION_COLORS v with Some c => c | None => 8421504 end /\
  (assoc ACTION_COLORS v = None <-> v = "pause" \/ v = "unpause").
Proof.
  unfold _build_embed in He. rewrite Ha in He. cbn [table_get bind] in He.
  assert (Ht : (exists em, assoc ACTION_EMOJIS v = Some em /\ em <> "") /\
               (assoc ACTION_COLORS v = None <-> v = "pause" \/ v = "unpause")).
  { clear - Hin. simpl in Hin.
    repeat destruct Hin as [Hin|Hin]; try contradiction; subst;
      (split; [eexists; split; [cbv; reflexivity | discriminate]
              | split; [cbv; try discriminate; intros _; tauto
                       | intros [H|H]; try discriminate; reflexivity]]). }
  destruct Ht as [(em & Hem & Hne) Hcol].
  rewrite Hem in He. cbn [bind] in He.
  destruct (if String.eqb (domain ev) "container" then _ else _) as [lines|e];
    cbn [bind] in He; [|discriminate].
  injection He as <-. split; [|split; [reflexivity | exact Hcol]].
  exists em. split; [exact Hem|]. split; [exact Hne | reflexivity].
Qed.

Lemma normalized_action_styled_witness :
  let ev := mkEvent "container" (PStr "pause") (PStr "abc") PNone PNone PNone
                    0%float [] [] in
  exists emb,
    _build_embed (fun _ => "") ev = Ok emb /\
    (exists em,
       assoc ACTION_EMOJIS "pause" = Some em /\ em <> "" /\
       title emb = (em ++ " Docker Event Detected")%string) /\
    color emb = match assoc ACTION_COLORS "pause" with Some c => c | None => 8421504 end /\
    (assoc ACTION_COLORS "pause" = None <-> "pause" = "pause" \/ "pause" = "unpause").
Proof.
  cbv zeta. eexists. split; [vm_compute; reflexivity|].
  apply (normalized_action_styled (fun _ => "")
    (mkEvent "container" (PStr "pause") (PStr "abc") PNone PNone PNone
             0%float [] []) "pause").
  - reflexivity.
  - vm_compute; tauto.
  - vm_compute; reflexivity.
Defined.

(** A client built without a webhook argument (or with an
    empty one) while [DISCORD_WEBHOOK] is unset or blank never posts:
    [send_event] returns [False] for every event, without building the
    embed. *)
Theorem no_webhook_never_posts (e : env) (url : option string) (t : Z)
  (fmt : pyval -> string) (post : embed -> post_result) (ev : NormalizedEvent)
  (Hurl : url = None \/ url = Some "")
  (Hw : DISCORD_WEBHOOK e = "") :
  send_event fmt (new_client e url t) post ev = Ok (false, None).
Proof.
  unfold send_event, new_client.
  destruct Hurl as [-> | ->]; cbn [webhook_url]; [|cbn [String.eqb]]; rewrite Hw;
    reflexivity.
Qed.

Lemma no_webhook_never_posts_witness :
  let e := fun k => if String.eqb k "DISCORD_WEBHOOK" then Some "  " else None in
  DISCORD_WEBHOOK e = "" /\
  send_event (fun _ => "") (new_client e None 5) (fun _ => Response 204)
    (mkEvent "container" (PStr "die") (PStr "abc") PNone PNone PNone 0%float [] [])
  = Ok (false, None).
Proof.
  cbv zeta. split; [vm_compute; reflexivity|].
  apply no_webhook_never_posts; [left; reflexivity | vm_compute; reflexivity].
Defined.

End DiscordExtras.

(* ------------------------------------------------------------------ *)
(** ** Properties of [main], [config] and the Docker client *)

Module MainExtraFacts.
Import Py Parser Watcher WatcherFacts Main Config.

Lemma handed_callback {A} now (send : NormalizedEvent -> res A) r :
  handed (docker_event_callback now send r) =
  match parse_event now r with Ok (Some ev) => [ev] | _ => [] end.
Proof.
  unfold docker_event_callback.
  destruct (parse_event now r) as [[ev|]|e]; reflexivity.
Qed.

Lemma pipeline_items_fst {A} now (send : NormalizedEvent -> res A) raws :
  map fst (pipeline_items now send raws) = raws.
Proof. unfold pipeline_items. rewrite map_map. apply map_id. Qed.

(** Streams that each open, deliver their raw events and end, with the
    stop flag never set, a retry ceiling of at least one and a valid initial
    backoff: every raw event is dispatched, in order, and the script runs
    out. *)
Lemma run_streams {A} cfg flag now (send : NormalizedEvent -> res A)
  (streams : list (list pyval * stream_end)) :
  (forall k, flag k = false) ->
  (forall m, max_retries cfg = Some m -> 1 <= m) ->
  sleep_ok (initial_backoff cfg) = true ->
  forall st,
    dispatched (fst (fst (run cfg flag st
      (map (fun s => Opened (pipeline_items now send (fst s)) (snd s)) streams)))) =
    List.concat (map fst streams) /\
    snd (run cfg flag st
      (map (fun s => Opened (pipeline_items now send (fst s)) (snd s)) streams)) = Pending.
Proof.
  intros Hf Hm Hs.
  induction streams as [|[raws fin] rest IH]; intros st.
  - simpl. rewrite Hf. split; reflexivity.
  - cbn [map fst snd]. rewrite run_opened by apply Hf.
    unfold stream_phase.
    destruct (dispatch_all flag (reset cfg (tick st)) (pipeline_items now send raws) Hf)
      as (o & Hd & Ho & _).
    rewrite Hd. rewrite pipeline_items_fst in Ho.
    set (s1 := mkState _ _ _).
    assert (Hx : exists o' s2, stream_exit cfg flag s1 false fin = (o', s2, Continue) /\
                               dispatched o' = []).
    { unfold stream_exit, after_stream.
      assert (Hs1 : sleep_ok (backoff s1) = true) by exact Hs.
      destruct fin as [|e].
      - rewrite Hf, Hs1. do 2 eexists; split; reflexivity.
      - unfold handle_error, exceeded. rewrite Hs1.
        destruct (recoverable e);
          [|do 2 eexists; split; reflexivity].
        assert (Hr : retries s1 = 0) by reflexivity. rewrite Hr.
        destruct (max_retries cfg) as [m|] eqn:Em.
        + specialize (Hm m eq_refl).
          replace (Z.ltb m (0 + 1)) with false by (symmetry; apply Z.ltb_ge; lia).
          do 2 eexists; split; reflexivity.
        + do 2 eexists; split; reflexivity. }
    destruct Hx as (o' & s2 & He & Hd').
    rewrite He. cbv iota beta.
    destruct (IH s2) as [IH1 IH2].
    destruct (run cfg flag s2 _) as [[o'' s3] r]. simpl in *.
    rewrite !dispatched_app, Ho, Hd', IH1, app_nil_r. split; [reflexivity | exact IH2].
Qed.

(** [strip] of a one-character string is that string or empty. *)
Lemma strip_char_string c :
  strip (String c EmptyString) = String c EmptyString \/
  strip (String c EmptyString) = EmptyString.
Proof.
  unfold strip, rev_string. simpl. destruct (is_space c) eqn:E; [right; reflexivity|].
  left. simpl. rewrite E. reflexivity.
Qed.

End MainExtraFacts.

Module MainExtras.
Import Py Parser Watcher Main Config MainExtraFacts.

(** When the watcher of [main] runs the callback on
    streams that open and end (stop never requested, retry ceiling at
    least one or none, initial backoff a valid sleep duration), every raw event is dispatched in stream order,
    and the events handed to [send_event] are exactly the events
    [parse_event] returns for them, in the same order: an event on which
    [parse_event] raises or returns [None] is skipped without losing the
    ones after it. *)
Theorem pipeline_forwards_parsed {A} (cfg : config) (flag : nat -> bool) (now : float)
  (send : NormalizedEvent -> res A) (streams : list (list pyval * stream_end))
  (Hf : forall k, flag k = false)
  (Hm : forall m, max_retries cfg = Some m -> 1 <= m)
  (Hs : sleep_ok (initial_backoff cfg) = true) :
  let atts := map (fun s => Opened (pipeline_items now send (fst s)) (snd s)) streams in
  snd (_run cfg flag atts) = Pending /\
  dispatched (fst (fst (_run cfg flag atts))) = List.concat (map fst streams) /\
  flat_map (fun r => handed (docker_event_callback now send r))
           (dispatched (fst (fst (_run cfg flag atts)))) =
  flat_map (fun r => match parse_event now r with Ok (Some ev) => [ev] | _ => [] end)
           (List.concat (map fst streams)).
Proof.
  cbv zeta. unfold _run.
  destruct (run_streams cfg flag now send streams Hf Hm Hs (init cfg)) as [H1 H2].
  rewrite H1. split; [exact H2 | split; [reflexivity|]].
  apply flat_map_ext. intros r. apply handed_callback.
Qed.

Lemma pipeline_forwards_parsed_witness :
  let streams :=
    [([PDict [("Type", PStr "container"); ("Action", PStr "die"); ("time", PInt 1)];
       PDict [("Type", PInt 1); ("Action", PStr "start")];
       PDict [("Type", PStr "network"); ("Action", PStr "connect"); ("time", PInt 2)]],
      StreamFailed APIError);
     ([PDict [("Type", PStr "container"); ("Action", PStr "start"); ("time", PInt 3)]],
      StreamClosed)] in
  let atts := map (fun s => Opened (pipeline_items 0%float (fun _ => Ok true) (fst s))
                                   (snd s)) streams in
  snd (_run (mkConfig 1%float 2%float 5%float (Some 3)) (fun _ => false) atts) = Pending /\
  dispatched (fst (fst (_run (mkConfig 1%float 2%float 5%float (Some 3))
                           (fun _ => false) atts))) = List.concat (map fst streams) /\
  flat_map (fun r => handed (docker_event_callback 0%float (fun _ => Ok true) r))
    (dispatched (fst (fst (_run (mkConfig 1%float 2%float 5%float (Some 3))
                             (fun _ => false) atts)))) =
  flat_map (fun r => match parse_event 0%float r with Ok (Some ev) => [ev] | _ => [] end)
    (List.concat (map fst streams)).
Proof.
  exact (pipeline_forwards_parsed (mkConfig 1%float 2%float 5%float (Some 3))
    (fun _ => false) 0%float (fun _ => Ok true)
    [([PDict [("Type", PStr "container"); ("Action", PStr "die"); ("time", PInt 1)];
       PDict [("Type", PInt 1); ("Action", PStr "start")];
       PDict [("Type", PStr "network"); ("Action", PStr "connect"); ("time", PInt 2)]],
      StreamFailed APIError);
     ([PDict [("Type", PStr "container"); ("Action", PStr "start"); ("time", PInt 3)]],
      StreamClosed)]
    (fun _ => eq_refl)
    (fun m (H : Some 3 = Some m) => ltac:(injection H as <-; lia))
    ltac:(vm_compute; reflexivity)).
Defined.

(** Whatever the environment, [CRITICAL_EVENTS] holds
    only one-character strings (the comprehension iterates over the
    characters of the variable), so no event name such as ["die"],
    ["oom"], ["kill"] or ["restart"] is ever in it. *)
Theorem critical_events_single_chars (e : env) :
  Forall (fun x => String.length x = 1%nat) (CRITICAL_EVENTS e) /\
  ~ In "die" (CRITICAL_EVENTS e) /\ ~ In "oom" (CRITICAL_EVENTS e) /\
  ~ In "kill" (CRITICAL_EVENTS e) /\ ~ In "restart" (CRITICAL_EVENTS e).
Proof.
  assert (H : Forall (fun x => String.length x = 1%nat) (CRITICAL_EVENTS e)).
  { unfold CRITICAL_EVENTS. apply Forall_map. apply Forall_forall.
    intros c Hc. apply filter_In in Hc. destruct Hc as [_ Hc].
    destruct (strip_char_string c) as [Hs | Hs]; rewrite Hs in *;
      [reflexivity | discriminate]. }
  assert (Hn : forall w, (String.length w <> 1)%nat -> ~ In w (CRITICAL_EVENTS e)).
  { intros w Hw Hin. rewrite Forall_forall in H. exact (Hw (H w Hin)). }
  split; [exact H|].
  repeat split; apply Hn; discriminate.
Qed.

End MainExtras.

Module DockerExtras.
Import Py Config DockerClient.

(** [init_docker] connects with TLS only for a
    [DOCKER_HOST] starting with the exact prefix ["tcp://"] and
    [DOCKER_TLS_VERIFY] set, and then with the [cert.pem], [key.pem] and
    [ca.pem] files of the normalized certificate directory; for any other
    host, or with verification off, it connects without TLS (whatever
    [DOCKER_CERT_PATH] is) and a failing connection or ping becomes a
    [RuntimeError]; with TLS wanted and [DOCKER_CERT_PATH] empty it raises
    [RuntimeError] before any connection attempt. *)
Theorem init_docker_tls (e : env) (tls_accepts : tls_config -> bool)
  (connects : option tls_config -> bool) :
  (forall t, init_docker e tls_accepts connects = Connected (Some t) ->
     String.prefix "tcp://" (DOCKER_HOST e) = true /\ DOCKER_TLS_VERIFY e = true /\
     DOCKER_CERT_PATH e <> "" /\
     t = mkTLS ((cert_path e ++ "/cert.pem")%string, (cert_path e ++ "/key.pem")%string)
               (cert_path e ++ "/ca.pem")%string true) /\
  (String.prefix "tcp://" (DOCKER_HOST e) = false \/ DOCKER_TLS_VERIFY e = false ->
     init_docker e tls_accepts connects =
     if connects None then Connected None else InitRuntimeError true) /\
  (String.prefix "tcp://" (DOCKER_HOST e) = true -> DOCKER_TLS_VERIFY e = true ->
     DOCKER_CERT_PATH e = "" -> init_docker e tls_accepts connects = InitRuntimeError false).
Proof.
  unfold init_docker, _build_tls_config.
  split; [|split].
  - intros t.
    destruct (String.prefix "tcp://" (DOCKER_HOST e)) eqn:Hp;
      [|destruct (connects None); discriminate].
    destruct (DOCKER_TLS_VERIFY e) eqn:Hv;
      [|destruct (connects None); discriminate].
    cbn [negb]. destruct (String.eqb (DOCKER_CERT_PATH e) "") eqn:Hc; [discriminate|].
    match goal with |- context [tls_accepts ?cfg] =>
      destruct (tls_accepts cfg); [|discriminate] end.
    match goal with |- context [connects (Some ?cfg)] =>
      destruct (connects (Some cfg)); [|discriminate] end.
    intros H. injection H as <-.
    split; [reflexivity|]. split; [reflexivity|]. split; [|reflexivity].
    intros H. rewrite H in Hc. discriminate.
  - intros [Hp | Hv].
    + rewrite Hp. reflexivity.
    + rewrite Hv. destruct (String.prefix "tcp://" (DOCKER_HOST e)); reflexivity.
  - intros Hp Hv Hc. rewrite Hp, Hv, Hc. reflexivity.
Qed.

Lemma init_docker_tls_witness :
  let e := fun k => if String.eqb k "DOCKER_HOST" then Some " tcp://10.0.0.2:2376 "
                    else if String.eqb k "DOCKER_TLS_VERIFY" then Some "1"
                    else if String.eqb k "DOCKER_CERT_PATH" then Some "/etc/docker/certs/"
                    else None in
  init_docker e (fun _ => true) (fun _ => true) =
    Connected (Some (mkTLS ("/etc/docker/certs/cert.pem", "/etc/docker/certs/key.pem")
                           "/etc/docker/certs/ca.pem" true)) /\
  (String.prefix "tcp://" (DOCKER_HOST e) = true /\ DOCKER_TLS_VERIFY e = true /\
   DOCKER_CERT_PATH e <> "" /\
   mkTLS ("/etc/docker/certs/cert.pem", "/etc/docker/certs/key.pem")
         "/etc/docker/certs/ca.pem" true =
   mkTLS ((cert_path e ++ "/cert.pem")%string, (cert_path e ++ "/key.pem")%string)
         (cert_path e ++ "/ca.pem")%string true).
Proof.
  cbv zeta.
  assert (H : init_docker
    (fun k => if String.eqb k "DOCKER_HOST" then Some " tcp://10.0.0.2:2376 "
              else if String.eqb k "DOCKER_TLS_VERIFY" then Some "1"
              else if String.eqb k "DOCKER_CERT_PATH" then Some "/etc/docker/certs/"
              else None) (fun _ => true) (fun _ => true) =
    Connected (Some (mkTLS ("/etc/docker/certs/cert.pem", "/etc/docker/certs/key.pem")
                           "/etc/docker/certs/ca.pem" true)))
    by (vm_compute; reflexivity).
  split; [exact H|].
  exact (proj1 (init_docker_tls _ (fun _ => true) (fun _ => true)) _ H).
Defined.

End DockerExtras.
